(** * playbase: leaderboard merge, season arithmetic and the serverless
      handlers that drive the GitHub-backed JSON store.

    The development embeds three Netlify functions of the repository:
    - [save-reaction-score] (the score submission handler, together with
      its earlier three-field variant kept under [examples/]),
    - [season-reset] (archive the board, then reset two documents),
    - [debug-key] (a key-format probe),
    and proves what they compute and which store operations they issue. *)

From Stdlib Require Import ZArith QArith List Bool String Lia Lqa.
From Stdlib Require Import Sorted Permutation.
From stdpp Require Import base countable gmap.
Import ListNotations.

Local Open Scope Z_scope.

(** ** Data model *)

(** One leaderboard entry, [{ ms, timestamp, id, playerName, playerId, season }].
    [ms] is a JavaScript number; every finite double is a rational and the
    code only compares and subtracts such values, so [Q] carries it.
    [timestamp] is the instant (milliseconds since the Unix epoch) that
    [toISOString] renders.  The three last fields are absent from entries
    written by the three-field variant of the handler. *)
Record Score : Type := mkScore {
  ms : Q;
  timestamp : Z;
  id : string;
  playerName : option string;
  playerId : option string;
  season : option Z
}.

(** [slice(0, 10)] *)
Definition capacity : nat := 10.

(** ** Array.prototype.sort, findIndex, slice *)

Section ArraySort.
Context {A : Type}.
(** the comparator handed to [sort]: negative when the first argument
    goes first, zero for a tie *)
Variable comparefn : A -> A -> Q.

(** ECMAScript requires [sort] to be stable and, for a consistent
    comparator, to order by it; insertion from the right computes that
    list.  [x] stood before every element of [l] in the input, so on a tie
    ([comparefn x y = 0]) it stays in front. *)
Fixpoint sort_insert (x : A) (l : list A) : list A :=
  match l with
  | [] => [x]
  | y :: r =>
      if Qle_bool (comparefn x y) 0 then x :: y :: r
      else y :: sort_insert x r
  end.

Fixpoint sort (l : list A) : list A :=
  match l with
  | [] => []
  | x :: r => sort_insert x (sort r)
  end.
End ArraySort.

(** [arr.findIndex(p)]: index of the first element satisfying [p], or -1 *)
Fixpoint findIndex {A : Type} (p : A -> bool) (l : list A) : Z :=
  match l with
  | [] => -1
  | x :: r =>
      if p x then 0
      else let i := findIndex p r in if i <? 0 then -1 else i + 1
  end.

(** ** The leaderboard aggregator (steps 6 and 8 of the submission handler) *)

(** [(a, b) => a.ms - b.ms] *)
Definition compare_ms (a b : Score) : Q := (ms a - ms b)%Q.

(** [topFile.content.top || []] *)
Definition currentTop_of (top : option (list Score)) : list Score :=
  match top with
  | Some l => l
  | None => []
  end.

(** [[...currentTop, newScore].sort((a, b) => a.ms - b.ms).slice(0, 10)] *)
Definition updatedTop (currentTop : list Score) (newScore : Score) : list Score :=
  firstn capacity (sort compare_ms (currentTop ++ [newScore])).

(** what [slice(0, 10)] cuts off *)
Definition droppedTop (currentTop : list Score) (newScore : Score) : list Score :=
  skipn capacity (sort compare_ms (currentTop ++ [newScore])).

(** A JavaScript number that may be [Infinity]. *)
Inductive Bound : Type :=
| Finite (q : Q)
| Infinity.

(** [currentTop[0]?.ms || Infinity]: [undefined] and [0] are falsy *)
Definition best_or_Infinity (currentTop : list Score) : Bound :=
  match currentTop with
  | [] => Infinity
  | first :: _ => if Qeq_bool (ms first) 0 then Infinity else Finite (ms first)
  end.

(** [ms <= bound] *)
Definition le_Bound (q : Q) (b : Bound) : bool :=
  match b with
  | Finite r => Qle_bool q r
  | Infinity => true
  end.

(** [const isNewRecord = ms <= (currentTop[0]?.ms || Infinity)] *)
Definition isNewRecord (currentTop : list Score) (new_ms : Q) : bool :=
  le_Bound new_ms (best_or_Infinity currentTop).

(** [updatedTop.findIndex(score => score.id === id) + 1] *)
Definition position (updatedTop : list Score) (new_id : string) : Z :=
  findIndex (fun score => String.eqb (id score) new_id) updatedTop + 1.

(** [position || null] *)
Definition or_null (position : Z) : option Z :=
  if position =? 0 then None else Some position.

(** ** Season arithmetic *)

(** [new Date('2025-01-15T00:00:00Z')], in milliseconds since the Unix epoch *)
Definition seasonStart : Z := 1736899200000.

(** [1000 * 60 * 60 * 24] *)
Definition ms_per_day : Z := 1000 * 60 * 60 * 24.

(** season-reset:
    [daysSinceStart = Math.floor((currentDate - seasonStart) / (1000*60*60*24))],
    [currentSeason = Math.floor(daysSinceStart / 90) + 1].
    Both operands are integers below 2^53 and the quotients are far from
    the rounding step, so [Math.floor] of the double quotient is the
    integer floor quotient. *)
Definition reset_daysSinceStart (currentDate : Z) : Z :=
  (currentDate - seasonStart) / ms_per_day.

Definition reset_currentSeason (currentDate : Z) : Z :=
  reset_daysSinceStart currentDate / 90 + 1.

(** save-reaction-score: the same two lines, on its own [new Date()] *)
Definition submit_daysSinceStart (now : Z) : Z :=
  (now - seasonStart) / ms_per_day.

Definition submit_currentSeason (now : Z) : Z :=
  submit_daysSinceStart now / 90 + 1.

(** The season as the specification words it:
    [floor((now - epoch) / periodLength) + 1] with a 90-day period. *)
Definition periodLength : Z := 90 * ms_per_day.

Definition spec_currentSeason (now : Z) : Z :=
  (now - seasonStart) / periodLength + 1.

(** ** Requests, documents and responses *)

(** A value found in the parsed request body. *)
Inductive JsValue : Type :=
| JsUndefined
| JsNull
| JsBoolean (b : bool)
| JsNumber (q : Q)
| JsInfinity (negative : bool)   (* an overflowing numeric literal *)
| JsString (s : string)
| JsObject.                      (* objects and arrays *)

(** [!v] is [negb (truthy v)] *)
Definition truthy (v : JsValue) : bool :=
  match v with
  | JsUndefined | JsNull => false
  | JsBoolean b => b
  | JsNumber q => negb (Qeq_bool q 0)
  | JsInfinity _ => true
  | JsString s => negb (String.eqb s EmptyString)
  | JsObject => true
  end.

(** [typeof v === 'number'] *)
Definition typeof_number (v : JsValue) : bool :=
  match v with
  | JsNumber _ | JsInfinity _ => true
  | _ => false
  end.

(** [v < bound] and [v > bound]; they are only reached for numbers, the
    disjuncts before them having short-circuited for everything else *)
Definition js_lt (v : JsValue) (bound : Q) : bool :=
  match v with
  | JsNumber q => negb (Qle_bool bound q)
  | JsInfinity negative => negative
  | _ => false
  end.

Definition js_gt (v : JsValue) (bound : Q) : bool :=
  match v with
  | JsNumber q => negb (Qle_bool q bound)
  | JsInfinity negative => negb negative
  | _ => false
  end.

(** [!ms || typeof ms !== 'number' || ms < 80 || ms > 1000] *)
Definition invalid_reaction_time (v : JsValue) : bool :=
  negb (truthy v) || negb (typeof_number v) || js_lt v 80 || js_gt v 1000.

(** the number a validated [ms] holds *)
Definition number_of (v : JsValue) : Q :=
  match v with
  | JsNumber q => q
  | _ => 0%Q
  end.

(** [const { ms, playerName, playerId } = JSON.parse(event.body)].
    The two names are modelled when they are strings ([None]: absent). *)
Record Submission : Type := mkSubmission {
  sub_ms : JsValue;
  sub_playerName : option string;
  sub_playerId : option string
}.

(** The Netlify event.  [parsed] is what [JSON.parse(event.body)] followed
    by the destructuring yields: the fields, or the message of the error
    thrown (malformed JSON, or a body that parses to [null]). *)
Record Event : Type := mkEvent {
  httpMethod : string;
  parsed : string + Submission
}.

(** [process.env] *)
Record ProcessEnv : Type := mkProcessEnv {
  GITHUB_APP_ID : option string;
  GITHUB_INSTALLATION_ID : option string;
  GITHUB_PRIVATE_KEY : option string
}.

(** The fixed document paths. *)
Inductive Path : Type :=
| LatestJson                   (* 'reaction/latest.json' *)
| TopJson                      (* 'reaction/top.json' *)
| ArchiveJson (season : Z).    (* `reaction/archive/season-${currentSeason}.json` *)

(** The JSON documents the handlers write. *)
Inductive Doc : Type :=
| ScoreDoc (score : Score)
    (* latest.json as a submission writes it: the bare [newScore] *)
| TopDoc (top : option (list Score)) (last_updated : Z)
         (season : option Z) (season_start : option Z)
    (* [{ top, last_updated }], plus [season], [season_start] after a reset *)
| LatestDoc (latest : option Score) (last_updated : Z) (season : Z)
    (* [{ latest: null, last_updated, season }] *)
| ArchiveDoc (season : Z) (season_end : Z) (top_scores : list Score)
             (total_players : Z).

(** [content.top]: [undefined] on a document without that property *)
Definition doc_top (d : Doc) : option (list Score) :=
  match d with
  | TopDoc top _ _ _ => top
  | _ => None
  end.

(** The blob sha GitHub returns with a file: the version token. *)
Definition Sha : Type := N.

(** Commit messages, by template. *)
Inductive CommitMessage : Type :=
| FeatNewReactionTime (ms : Q)
    (* `feat(reaction): new ${ms}ms reaction time` *)
| FeatScored (playerName : string) (ms : Q)
    (* `feat(reaction): ${playerName || 'Anonymous'} scored ${ms}ms` *)
| UpdateTop (ms : Q)
    (* `update(reaction): top scores updated with ${ms}ms` *)
| UpdateTopBy (playerName : string) (ms : Q)
    (* `update(reaction): top scores updated with ${playerName || 'Anonymous'} ${ms}ms` *)
| ArchiveSeason (season : Z)      (* `Archive Season ${currentSeason} data` *)
| ResetLeaderboard (season : Z)   (* `Reset leaderboard for Season ${currentSeason + 1}` *)
| ResetLatest (season : Z).       (* `Reset latest score for Season ${currentSeason + 1}` *)

(** [error.message], by the [throw] that produced it. *)
Inductive ErrorMessage : Type :=
| Thrown (message : string)
    (* an error raised by a library call, with its own message *)
| AuthenticationFailed                       (* 'GitHub authentication failed' *)
| FailedToFetch (path : Path) (status : Z)   (* `Failed to fetch ${path}: ${response.status}` *)
| FailedToUpdate (path : Path) (error : string)
    (* `Failed to update ${path}: ${error}`, [error] being the response text *)
| MissingCredentials.                        (* 'Missing GitHub App credentials' *)

(** Response bodies, by shape. *)
Inductive Body : Type :=
| MethodNotAllowed               (* [{ error: 'Method not allowed' }] *)
| InvalidReactionTime
    (* [{ error: 'Invalid reaction time. Must be between 80-1000ms.' }] *)
| FailedToSaveScore (details : ErrorMessage)
    (* [{ error: 'Failed to save score', details: error.message }] *)
| ScoreSaved (score : Score) (isNewRecord : bool) (position : option Z)
    (* [{ success: true, score, isNewRecord, position, message }] *)
| FailedToResetSeason (details : ErrorMessage)
    (* [{ success: false, error: 'Failed to reset season', details }] *)
| SeasonArchived (archived_season new_season : Z) (archive_path : Path)
| PrivateKeyFormatIssue (without_replacement with_replacement : string)
| FailedToTest (details : ErrorMessage)
| JwtCreated (appId installationId : option string).

Record Response : Type := mkResponse {
  statusCode : Z;
  body : Body
}.

(** ** The calls that leave the process *)

(** How the private key is prepared before [jwt.sign]. *)
Inductive KeyForm : Type :=
| AsConfigured          (* the environment variable as it is *)
| NewlinesUnescaped     (* [.replace(/\\n/g, '\n')] *)
| Reflowed.             (* unescaped, or re-broken every 64 characters *)

(** Outcome of [jwt.sign]. *)
Inductive Signed : Type :=
| SignThrows (message : string)
| Jwt (token : string).

(** Outcome of an HTTP call. *)
Inductive Reply (A : Type) : Type :=
| Rejected (message : string)           (* no response: the promise rejects *)
| NotOk (status : Z) (text : string)    (* a response with [ok] false *)
| Ok (payload : A).
Arguments Rejected {A} message.
Arguments NotOk {A} status text.
Arguments Ok {A} payload.

(** A handler is a tree of external calls, each continued on its outcome. *)
Inductive Prog (R : Type) : Type :=
| Ret (r : R)
| Sign (key : option string) (form : KeyForm) (iat exp : Z) (iss : option string)
       (k : Signed -> Prog R)
| Exchange (installation : option string) (jwt : string)
           (k : Reply string -> Prog R)
| GetFile (auth : option string) (path : Path)
          (k : Reply (Doc * Sha) -> Prog R)
| PutFile (auth : option string) (path : Path) (content : Doc)
          (sha : option Sha) (message : CommitMessage)
          (k : Reply unit -> Prog R)
| Settle (k : bool -> Prog R).
    (* two requests in flight have both failed: which rejection came first *)
Arguments Ret {R} r.
Arguments Sign {R} key form iat exp iss k.
Arguments Exchange {R} installation jwt k.
Arguments GetFile {R} auth path k.
Arguments PutFile {R} auth path content sha message k.
Arguments Settle {R} k.

Fixpoint bind {A B : Type} (p : Prog A) (f : A -> Prog B) : Prog B :=
  match p with
  | Ret a => f a
  | Sign key form iat exp iss k => Sign key form iat exp iss (fun r => bind (k r) f)
  | Exchange inst jwt k => Exchange inst jwt (fun r => bind (k r) f)
  | GetFile auth path k => GetFile auth path (fun r => bind (k r) f)
  | PutFile auth path content sha message k =>
      PutFile auth path content sha message (fun r => bind (k r) f)
  | Settle k => Settle (fun r => bind (k r) f)
  end.

(** Code inside a [try] block: it throws or yields a value. *)
Definition Try (A : Type) : Type := Prog (ErrorMessage + A).

Definition throw {A : Type} (e : ErrorMessage) : Try A := Ret (inl e).
Definition pure {A : Type} (a : A) : Try A := Ret (inr a).

Definition try_bind {A B : Type} (p : Try A) (f : A -> Try B) : Try B :=
  bind p (fun r => match r with inl e => Ret (inl e) | inr a => f a end).

(** [try { ... } catch (error) { return handler(error) }] *)
Definition try_catch {A : Type} (p : Try A) (handler : ErrorMessage -> Prog A) : Prog A :=
  bind p (fun r => match r with inl e => handler e | inr a => Ret a end).

Declare Scope prog_scope.
Delimit Scope prog_scope with prog.
Notation "'let!' x ':=' p 'in' q" := (try_bind p (fun x => q))
  (at level 10, x pattern, p at level 100, q at level 200) : prog_scope.

Local Open Scope prog_scope.

(** ** The score submission handler *)

(** The handler exists twice: [examples/netlify-function.js] stores
    three-field scores, [netlify/functions/save-reaction-score.js] adds the
    player and the season.  Both share every step below. *)
Inductive Variant : Type :=
| ThreeField
| Seasonal.

(** The clock readings of one submission, in milliseconds:
    [new Date()] for the timestamp, [new Date()] for the season, and the
    two [Date.now()] of the JWT payload. *)
Record Clock : Type := mkClock {
  at_timestamp : Z;
  at_season : Z;
  at_iat : Z;
  at_exp : Z
}.

(** [value || fallback] on an optional string *)
Definition or_else (value : option string) (fallback : string) : string :=
  match value with
  | Some s => if String.eqb s EmptyString then fallback else s
  | None => fallback
  end.

(** [const newScore = { ms, timestamp, id, ... }] *)
Definition newScore_of (v : Variant) (submission : Submission) (clock : Clock)
    (random_id : string) : Score :=
  match v with
  | ThreeField =>
      mkScore (number_of (sub_ms submission)) (at_timestamp clock) random_id
              None None None
  | Seasonal =>
      mkScore (number_of (sub_ms submission)) (at_timestamp clock) random_id
              (Some (or_else (sub_playerName submission) "Anonymous"))
              (Some (or_else (sub_playerId submission) "unknown"))
              (Some (submit_currentSeason (at_season clock)))
  end.

(** Step 2: the JWT.  A missing key makes [.replace] / [.includes] throw a
    [TypeError] before [jwt.sign] is reached. *)
Definition sign_jwt (v : Variant) (env : ProcessEnv) (clock : Clock) : Try string :=
  let iat := at_iat clock / 1000 - 60 in
  let exp := at_exp clock / 1000 + 600 in
  match GITHUB_PRIVATE_KEY env with
  | None => throw (Thrown "Cannot read properties of undefined")
  | Some key =>
      Sign (Some key)
           (match v with ThreeField => NewlinesUnescaped | Seasonal => Reflowed end)
           iat exp (GITHUB_APP_ID env)
           (fun signed =>
              match signed with
              | SignThrows message => throw (Thrown message)
              | Jwt token => pure token
              end)
  end.

(** Step 3: exchange the JWT for an installation access token. *)
Definition exchange_token (env : ProcessEnv) (jwtToken : string) : Try string :=
  Exchange (GITHUB_INSTALLATION_ID env) jwtToken
    (fun authResponse =>
       match authResponse with
       | Rejected message => throw (Thrown message)
       | NotOk _ _ => throw AuthenticationFailed
       | Ok accessToken => pure accessToken
       end).

(** [getGitHubFile], after its [fetch] has settled *)
Definition getGitHubFile_settled (path : Path) (response : Reply (Doc * Sha))
    : ErrorMessage + (Doc * Sha) :=
  match response with
  | Rejected message => inl (Thrown message)
  | NotOk status _ => inl (FailedToFetch path status)
  | Ok file => inr file
  end.

(** [Promise.all([getGitHubFile('reaction/latest.json'),
                  getGitHubFile('reaction/top.json')])]:
    both requests are issued; a failure of either is thrown, and when both
    fail the one that settled first. *)
Definition get_current_files (accessToken : string)
    : Try ((Doc * Sha) * (Doc * Sha)) :=
  GetFile (Some accessToken) LatestJson (fun latestResponse =>
  GetFile (Some accessToken) TopJson (fun topResponse =>
    match getGitHubFile_settled LatestJson latestResponse,
          getGitHubFile_settled TopJson topResponse with
    | inl e, inl e' => Settle (fun latest_first => throw (if latest_first then e else e'))
    | inl e, inr _ => throw e
    | inr _, inl e => throw e
    | inr latestFile, inr topFile => pure (latestFile, topFile)
    end)).

(** [updateGitHubFile(path, content, sha, message)]: a PUT that carries the
    sha read earlier. *)
Definition updateGitHubFile (accessToken : string) (path : Path) (content : Doc)
    (sha : Sha) (message : CommitMessage) : Try unit :=
  PutFile (Some accessToken) path content (Some sha) message
    (fun response =>
       match response with
       | Rejected m => throw (Thrown m)
       | NotOk _ error => throw (FailedToUpdate path error)
       | Ok _ => pure tt
       end).

Definition latest_message (v : Variant) (submission : Submission) : CommitMessage :=
  match v with
  | ThreeField => FeatNewReactionTime (number_of (sub_ms submission))
  | Seasonal => FeatScored (or_else (sub_playerName submission) "Anonymous")
                           (number_of (sub_ms submission))
  end.

Definition top_message (v : Variant) (submission : Submission) : CommitMessage :=
  match v with
  | ThreeField => UpdateTop (number_of (sub_ms submission))
  | Seasonal => UpdateTopBy (or_else (sub_playerName submission) "Anonymous")
                            (number_of (sub_ms submission))
  end.

(** the [try] block of [exports.handler] *)
Definition submit_body (v : Variant) (env : ProcessEnv) (clock : Clock)
    (random_id : string) (event : Event) : Try Response :=
  match parsed event with
  | inl message => throw (Thrown message)
  | inr submission =>
      if invalid_reaction_time (sub_ms submission) then
        pure (mkResponse 400 InvalidReactionTime)
      else
        let ms := number_of (sub_ms submission) in
        let timestamp := at_timestamp clock in
        let id := random_id in
        let newScore := newScore_of v submission clock random_id in
        let! jwtToken := sign_jwt v env clock in
        let! accessToken := exchange_token env jwtToken in
        let! (latestFile, topFile) := get_current_files accessToken in
        let! _ := updateGitHubFile accessToken LatestJson (ScoreDoc newScore)
                    (snd latestFile) (latest_message v submission) in
        let currentTop := currentTop_of (doc_top (fst topFile)) in
        let updatedTop := updatedTop currentTop newScore in
        let topData := TopDoc (Some updatedTop) timestamp None None in
        let! _ := updateGitHubFile accessToken TopJson topData
                    (snd topFile) (top_message v submission) in
        let isNewRecord := isNewRecord currentTop ms in
        let position := position updatedTop id in
        pure (mkResponse 200 (ScoreSaved newScore isNewRecord (or_null position)))
  end.

(** [exports.handler] of the submission function *)
Definition submit_handler (v : Variant) (env : ProcessEnv) (clock : Clock)
    (random_id : string) (event : Event) : Prog Response :=
  if negb (String.eqb (httpMethod event) "POST") then
    Ret (mkResponse 405 MethodNotAllowed)
  else
    try_catch (submit_body v env clock random_id event)
      (fun error => Ret (mkResponse 500 (FailedToSaveScore error))).

(** ** The season reset handler *)

(** [!value] on an environment variable: unset and empty are falsy *)
Definition missing (value : option string) : bool :=
  match value with
  | Some s => String.eqb s EmptyString
  | None => true
  end.

(** [(await response.json()).token] as a function of the body of the
    response.  [Response.json] is the platform's, not the repository's, so
    the reading of a body is a parameter of the handler: [json()] throws on
    a body that is no JSON (and [.token] throws on the JSON [null]);
    otherwise the result is the [token] member as the template literal
    [`Bearer ${...}`] renders it, [None] standing for [undefined]. *)
Inductive TokenMember : Type :=
| JsonThrows (message : string)
| Member (token : option string).

(** [getGitHubToken]: [response.ok] is not tested.  Whatever response came
    back is read as JSON and its [token] member returned: a refused
    exchange whose body is no JSON throws, one whose body is JSON yields
    the member of that body, [undefined] when it has none. *)
Definition getGitHubToken (json : string -> TokenMember)
    (appId installationId privateKey : option string)
    (date_now : Z) : Try (option string) :=
  let now := date_now / 1000 in
  Sign privateKey NewlinesUnescaped (now - 60) (now + 600) appId
    (fun signed =>
       match signed with
       | SignThrows message => throw (Thrown message)
       | Jwt token =>
           Exchange installationId token
             (fun response =>
                match response with
                | Rejected message => throw (Thrown message)
                | NotOk _ text =>
                    match json text with
                    | JsonThrows message => throw (Thrown message)
                    | Member token => pure token
                    end
                | Ok token => pure (Some token)
                end)
       end).

(** [octokit.repos.createOrUpdateFileContents] without a [sha] *)
Definition createOrUpdateFileContents (auth : option string) (path : Path)
    (message : CommitMessage) (content : Doc) : Try unit :=
  PutFile auth path content None message
    (fun response =>
       match response with
       | Rejected m => throw (Thrown m)
       | NotOk _ text => throw (Thrown text)
       | Ok _ => pure tt
       end).

(** The archive document, from what the read of [reaction/top.json] gave.
    The inner [try]/[catch] only logs a failed read, leaving the initial
    [top_scores: []], [total_players: 0]. *)
Definition archiveData_of (currentSeason currentDate : Z)
    (topResponse : Reply (Doc * Sha)) : Doc :=
  match topResponse with
  | Ok (currentTop, _) =>
      ArchiveDoc currentSeason currentDate
        (currentTop_of (doc_top currentTop))
        (match doc_top currentTop with
         | Some top => Z.of_nat (length top)
         | None => 0
         end)
  | _ => ArchiveDoc currentSeason currentDate [] 0
  end.

(** the [try] block of the season-reset [exports.handler]; the request
    body is never looked at.  [auth] is what is interpolated into
    [`Bearer ${...}`]: with [None] the client is built with
    [Bearer undefined]. *)
Definition reset_body (json : string -> TokenMember) (env : ProcessEnv)
    (date_now currentDate : Z) : Try Response :=
  let appId := GITHUB_APP_ID env in
  let installationId := GITHUB_INSTALLATION_ID env in
  let privateKey := GITHUB_PRIVATE_KEY env in
  if missing appId || missing installationId || missing privateKey then
    throw MissingCredentials
  else
    let! auth := getGitHubToken json appId installationId privateKey date_now in
    let daysSinceStart := reset_daysSinceStart currentDate in
    let currentSeason := reset_currentSeason currentDate in
    let newTopScores :=
      TopDoc (Some []) currentDate (Some (currentSeason + 1))
             (Some (seasonStart + currentSeason * 90 * 24 * 60 * 60 * 1000)) in
    let newLatestScore := LatestDoc None currentDate (currentSeason + 1) in
    GetFile auth TopJson (fun topResponse =>
      let archiveData := archiveData_of currentSeason currentDate topResponse in
      let! _ := createOrUpdateFileContents auth (ArchiveJson currentSeason)
                  (ArchiveSeason currentSeason) archiveData in
      let! _ := createOrUpdateFileContents auth TopJson
                  (ResetLeaderboard (currentSeason + 1)) newTopScores in
      let! _ := createOrUpdateFileContents auth LatestJson
                  (ResetLatest (currentSeason + 1)) newLatestScore in
      pure (mkResponse 200
              (SeasonArchived currentSeason (currentSeason + 1)
                              (ArchiveJson currentSeason)))).

Definition reset_handler (json : string -> TokenMember) (env : ProcessEnv)
    (date_now currentDate : Z) (event : Event) : Prog Response :=
  if negb (String.eqb (httpMethod event) "POST") then
    Ret (mkResponse 405 MethodNotAllowed)
  else
    try_catch (reset_body json env date_now currentDate)
      (fun error => Ret (mkResponse 500 (FailedToResetSeason error))).

(** ** The debug-key handler *)

Definition debug_body (env : ProcessEnv) (at_iat at_exp : Z) : Try Response :=
  let privateKey := GITHUB_PRIVATE_KEY env in
  let iat := at_iat / 1000 - 60 in
  let exp := at_exp / 1000 + 600 in
  let created :=
    mkResponse 200 (JwtCreated (GITHUB_APP_ID env) (GITHUB_INSTALLATION_ID env)) in
  Sign privateKey AsConfigured iat exp (GITHUB_APP_ID env)
    (fun first =>
       match first with
       | Jwt _ => pure created
       | SignThrows error =>
           match privateKey with
           | None =>
               pure (mkResponse 500
                       (PrivateKeyFormatIssue error
                          "Cannot read properties of undefined"))
           | Some _ =>
               Sign privateKey NewlinesUnescaped iat exp (GITHUB_APP_ID env)
                 (fun second =>
                    match second with
                    | Jwt _ => pure created
                    | SignThrows error2 =>
                        pure (mkResponse 500 (PrivateKeyFormatIssue error error2))
                    end)
           end
       end).

Definition debug_handler (env : ProcessEnv) (at_iat at_exp : Z)
    (event : Event) : Prog Response :=
  if negb (String.eqb (httpMethod event) "POST") then
    Ret (mkResponse 405 MethodNotAllowed)
  else
    try_catch (debug_body env at_iat at_exp)
      (fun error => Ret (mkResponse 500 (FailedToTest error))).

(** ** Running a handler against its surroundings *)

(** Whatever answers the external calls, over a state [W] of its own. *)
Record Environment (W : Type) : Type := mkEnvironment {
  on_sign : option string -> KeyForm -> Z -> Z -> option string -> W -> Signed * W;
  on_exchange : option string -> string -> W -> Reply string * W;
  on_get : option string -> Path -> W -> Reply (Doc * Sha) * W;
  on_put : option string -> Path -> Doc -> option Sha -> CommitMessage -> W
           -> Reply unit * W;
  on_settle : W -> bool * W
}.
Arguments on_sign {W} _.
Arguments on_exchange {W} _.
Arguments on_get {W} _.
Arguments on_put {W} _.
Arguments on_settle {W} _.

(** One external call, with what came back. *)
Inductive Call : Type :=
| Signing (key : option string) (form : KeyForm) (iat exp : Z)
          (iss : option string) (outcome : Signed)
| TokenExchange (installation : option string) (jwt : string) (reply : Reply string)
| StoreRead (auth : option string) (path : Path) (reply : Reply (Doc * Sha))
| StoreWrite (auth : option string) (path : Path) (content : Doc)
             (sha : option Sha) (message : CommitMessage) (reply : Reply unit)
| Settled (latest_first : bool).

(** The result, the final state of the surroundings, and the calls made. *)
Fixpoint run {W R : Type} (E : Environment W) (p : Prog R) (w : W)
    : R * W * list Call :=
  match p with
  | Ret r => (r, w, [])
  | Sign key form iat exp iss k =>
      let (o, w1) := on_sign E key form iat exp iss w in
      let '(r, w2, calls) := run E (k o) w1 in
      (r, w2, Signing key form iat exp iss o :: calls)
  | Exchange inst jwt k =>
      let (o, w1) := on_exchange E inst jwt w in
      let '(r, w2, calls) := run E (k o) w1 in
      (r, w2, TokenExchange inst jwt o :: calls)
  | GetFile auth path k =>
      let (o, w1) := on_get E auth path w in
      let '(r, w2, calls) := run E (k o) w1 in
      (r, w2, StoreRead auth path o :: calls)
  | PutFile auth path content sha message k =>
      let (o, w1) := on_put E auth path content sha message w in
      let '(r, w2, calls) := run E (k o) w1 in
      (r, w2, StoreWrite auth path content sha message o :: calls)
  | Settle k =>
      let (o, w1) := on_settle E w in
      let '(r, w2, calls) := run E (k o) w1 in
      (r, w2, Settled o :: calls)
  end.

(** whether a call came back with a failure *)
Definition call_failed (c : Call) : bool :=
  match c with
  | Signing _ _ _ _ _ (SignThrows _) => true
  | TokenExchange _ _ (Ok _) => false
  | StoreRead _ _ (Ok _) => false
  | StoreWrite _ _ _ _ _ (Ok _) => false
  | Signing _ _ _ _ _ (Jwt _) => false
  | Settled _ => false
  | _ => true
  end.

(** ** The backing store and the identity provider

    Both are external collaborators, reached over HTTP; the repository has
    no code for them.  The model below follows the contract the
    specification gives them and is one instance of [Environment]. *)

Global Instance Path_eq_dec : EqDecision Path.
Proof. solve_decision. Defined.

Global Instance Path_countable : Countable Path.
Proof.
  refine (inj_countable'
            (fun p => match p with
                      | LatestJson => inl true
                      | TopJson => inl false
                      | ArchiveJson n => inr n
                      end)
            (fun c => match c with
                      | inl true => LatestJson
                      | inl false => TopJson
                      | inr n => ArchiveJson n
                      end) _).
  intros []; reflexivity.
Defined.

(** Modelled from the spec: a stored document together with its current
    version token (data model, VersionToken); the store itself is missing
    from the sources. *)
Record File : Type := mkFile {
  content : Doc;
  sha : Sha
}.

(** Modelled from the spec: the external versioned document store and the
    credential provider (sections 4.1, 5 and 6), missing from the sources.
    Documents live under the fixed paths; [signs] tells which preparation
    of the private key signs; [installation_token] is the bearer token the
    provider issues, if it issues one; [concurrent] schedules the commits
    of other writers (concurrent invocations are the expected case): one
    slot is consumed before each store call of the handler observed. *)
Record GitHub : Type := mkGitHub {
  files : gmap Path File;
  signs : KeyForm -> bool;
  installation_token : option string;
  concurrent : list (option (Path * Doc))
}.

(** Modelled from the spec: the store's commit, missing from the sources;
    every accepted write returns a new version token. *)
Definition commit (path : Path) (doc : Doc) (fs : gmap Path File) : gmap Path File :=
  <[path := mkFile doc (match fs !! path with
                        | Some old => N.succ (sha old)
                        | None => 0%N
                        end)]> fs.

(** Modelled from the spec: the next scheduled commit of another writer
    (section 5), missing from the sources. *)
Definition others_commit (g : GitHub) : GitHub :=
  match concurrent g with
  | [] => g
  | None :: rest => mkGitHub (files g) (signs g) (installation_token g) rest
  | Some (path, doc) :: rest =>
      mkGitHub (commit path doc (files g)) (signs g) (installation_token g) rest
  end.

(** Modelled from the spec: the store's check of the authorization header
    (section 6), missing from the sources. *)
Definition authorized (g : GitHub) (auth : option string) : bool :=
  match auth, installation_token g with
  | Some presented, Some issued => String.eqb presented issued
  | _, _ => false
  end.

(** Modelled from the spec: signing the identity assertion (section 6);
    the [jsonwebtoken] library is missing from the sources. *)
Definition github_sign (key : option string) (form : KeyForm) (iat exp : Z)
    (iss : option string) (g : GitHub) : Signed * GitHub :=
  (match key with
   | Some _ => if signs g form then Jwt "jwt" else SignThrows "secretOrPrivateKey must be an asymmetric key"
   | None => SignThrows "secretOrPrivateKey must have a value"
   end, g).

(** Modelled from the spec: [obtainAccessToken] of the credential provider
    (section 6), missing from the sources. *)
Definition github_exchange (installation : option string) (jwt : string)
    (g : GitHub) : Reply string * GitHub :=
  (match installation_token g with
   | Some token => Ok token
   | None => NotOk 401 "Bad credentials"
   end, g).

(** Modelled from the spec: [read(path) -> (document, versionToken)] of
    section 4.1, missing from the sources; GET
    /repos/{owner}/{repo}/contents/{path}, [NotFound] when the path does not
    exist, [AccessDenied] without a valid token. *)
Definition github_get (auth : option string) (path : Path) (g : GitHub)
    : Reply (Doc * Sha) * GitHub :=
  let g := others_commit g in
  if authorized g auth then
    match files g !! path with
    | Some f => (Ok (content f, sha f), g)
    | None => (NotOk 404 "Not Found", g)
    end
  else (NotOk 401 "Bad credentials", g).

(** Modelled from the spec: [write(path, newDocument, versionToken, ...)]
    of section 4.1, missing from the sources; PUT
    /repos/{owner}/{repo}/contents/{path}.  A document that exists is
    replaced only when the request carries its current version token
    ([VersionConflict] otherwise, and the handler's own comment has the sha
    "needed for updates"); a request without token creates the document
    when the path is free and is refused when the path exists (the archive
    write of section 4.3 must fail rather than overwrite). *)
Definition github_put (auth : option string) (path : Path) (doc : Doc)
    (presented : option Sha) (message : CommitMessage) (g : GitHub)
    : Reply unit * GitHub :=
  let g := others_commit g in
  if authorized g auth then
    match files g !! path, presented with
    | Some f, Some s =>
        if N.eqb s (sha f) then
          (Ok tt, mkGitHub (commit path doc (files g)) (signs g)
                           (installation_token g) (concurrent g))
        else (NotOk 409 "sha does not match", g)
    | Some f, None => (NotOk 422 "sha was not supplied", g)
    | None, None =>
        (Ok tt, mkGitHub (commit path doc (files g)) (signs g)
                         (installation_token g) (concurrent g))
    | None, Some _ => (NotOk 409 "sha does not match", g)
    end
  else (NotOk 401 "Bad credentials", g).

(** Modelled from the spec: the store and the provider as surroundings of
    a handler. *)
Definition github : Environment GitHub :=
  mkEnvironment GitHub github_sign github_exchange github_get github_put
                (fun g => (true, g)).

(** ** Vocabulary of the statements *)

(** ascending by [ms] *)
Definition ms_le (a b : Score) : Prop := (ms a <= ms b)%Q.

(** [e.ms == v], to select the entries that tie at [v] *)
Definition has_ms (v : Q) (e : Score) : bool := Qeq_bool (ms e) v.

(** a reaction time the validation lets through *)
Definition accepted_ms (q : Q) : Prop := (80 <= q /\ q <= 1000)%Q.

(** The leaderboard document as the data model has it: ascending by
    value, made of accepted values, and no longer than the capacity. *)
Definition board_invariant (entries : list Score) : Prop :=
  StronglySorted ms_le entries /\
  Forall (fun e => accepted_ms (ms e)) entries /\
  (length entries <= capacity)%nat.

(** a request value that is a number within the domain bound *)
Definition in_domain (v : JsValue) : Prop :=
  exists q, v = JsNumber q /\ accepted_ms q.

(** [rank]: the handler's [position || null] for the merged board *)
Definition rank (currentTop : list Score) (newScore : Score) : option Z :=
  or_null (position (updatedTop currentTop newScore) (id newScore)).

(** the three components of a run *)
Definition response_of {W R : Type} (outcome : R * W * list Call) : R :=
  fst (fst outcome).
Definition world_of {W R : Type} (outcome : R * W * list Call) : W :=
  snd (fst outcome).
Definition calls_of {W R : Type} (outcome : R * W * list Call) : list Call :=
  snd outcome.

(** What a failed call makes the submission handler throw: the [throw]
    statements of step 3, [getGitHubFile] and [updateGitHubFile], and the
    rejections that propagate through [await]. *)
Definition submit_error (c : Call) : option ErrorMessage :=
  match c with
  | Signing _ _ _ _ _ (SignThrows m) => Some (Thrown m)
  | TokenExchange _ _ (Rejected m) => Some (Thrown m)
  | TokenExchange _ _ (NotOk _ _) => Some AuthenticationFailed
  | StoreRead _ _ (Rejected m) => Some (Thrown m)
  | StoreRead _ path (NotOk status _) => Some (FailedToFetch path status)
  | StoreWrite _ _ _ _ _ (Rejected m) => Some (Thrown m)
  | StoreWrite _ path _ _ _ (NotOk _ error) => Some (FailedToUpdate path error)
  | _ => None
  end.

(** The same for the season reset: a refused token exchange is not
    checked and a failed read is caught by the inner [try]. *)
Definition reset_error (c : Call) : option ErrorMessage :=
  match c with
  | Signing _ _ _ _ _ (SignThrows m) => Some (Thrown m)
  | TokenExchange _ _ (Rejected m) => Some (Thrown m)
  | StoreWrite _ _ _ _ _ (Rejected m) => Some (Thrown m)
  | StoreWrite _ _ _ _ _ (NotOk _ text) => Some (Thrown text)
  | _ => None
  end.

(** the error of the earliest call that has one *)
Fixpoint first_error (error_of : Call -> option ErrorMessage)
    (calls : list Call) : option ErrorMessage :=
  match calls with
  | [] => None
  | c :: rest =>
      match error_of c with
      | Some e => Some e
      | None => first_error error_of rest
      end
  end.

(** Surroundings that answer from a fixed table, to play a given failure. *)
Record Script : Type := mkScript {
  signed : Signed;
  exchanged : Reply string;
  read : Path -> Reply (Doc * Sha);
  written : Path -> Reply unit;
  latest_settles_first : bool
}.

Definition scripted (s : Script) : Environment unit :=
  mkEnvironment unit
    (fun _ _ _ _ _ w => (signed s, w))
    (fun _ _ w => (exchanged s, w))
    (fun _ path w => (read s path, w))
    (fun _ path _ _ _ w => (written s path, w))
    (fun w => (latest_settles_first s, w)).

(** the test [findIndex] applies: [score => score.id === id] *)
Definition same_id (newScore score : Score) : bool :=
  String.eqb (id score) (id newScore).

(** [e.ms <= bound] and [e.ms > bound], to split a board around a value *)
Definition at_most (bound : Q) (e : Score) : bool := Qle_bool (ms e) bound.
Definition above (bound : Q) (e : Score) : bool := negb (Qle_bool (ms e) bound).

(** the calls that reach the document store *)
Definition is_store_call (c : Call) : bool :=
  match c with
  | StoreRead _ _ _ | StoreWrite _ _ _ _ _ _ => true
  | _ => false
  end.

Definition is_write (c : Call) : bool :=
  match c with
  | StoreWrite _ _ _ _ _ _ => true
  | _ => false
  end.

Definition is_signing (c : Call) : bool :=
  match c with
  | Signing _ _ _ _ _ _ => true
  | _ => false
  end.

(** the authorization a store call was sent with *)
Definition auth_of (c : Call) : option (option string) :=
  match c with
  | StoreRead auth _ _ | StoreWrite auth _ _ _ _ _ => Some auth
  | _ => None
  end.

(** Sample data for the statements at concrete inputs. *)
Definition entry (value : Q) (name : string) : Score :=
  mkScore value 0 name None None None.

Definition sample_env : ProcessEnv :=
  mkProcessEnv (Some "1"%string) (Some "2"%string) (Some "key"%string).

Definition empty_repository : GitHub :=
  mkGitHub ∅ (fun _ => true) (Some "token"%string) [].

Definition seeded_repository : GitHub :=
  mkGitHub (<[LatestJson := mkFile (ScoreDoc (entry 150 "1a2b3c4d")) 3%N]>
              (<[TopJson := mkFile (TopDoc (Some [entry 150 "1a2b3c4d"]) 1 None None) 5%N]> ∅))
           (fun _ => true) (Some "token"%string) [].

(** the two documents as a season reset leaves them *)
Definition reset_repository : GitHub :=
  mkGitHub (<[LatestJson := mkFile (LatestDoc None seasonStart 1) 0%N]>
              (<[TopJson := mkFile (TopDoc (Some []) seasonStart (Some 1)
                                           (Some seasonStart)) 0%N]> ∅))
           (fun _ => true) (Some "token"%string) [].

Definition refusing_exchange : Script :=
  mkScript (Jwt "jwt") (NotOk 401 "Bad credentials")
           (fun _ => NotOk 404 "Not Found") (fun _ => Ok tt) true.

(** the same refusal with a JSON body, an object without a [token] member *)
Definition refusing_exchange_json : Script :=
  mkScript (Jwt "jwt") (NotOk 401 "{}")
           (fun _ => NotOk 404 "Not Found") (fun _ => Ok tt) true.

(** a reading of the sample bodies: [{}] is a JSON object without a
    [token] member; the texts "Bad credentials", "Not Found" and the like
    are no JSON *)
Definition sample_json (body : string) : TokenMember :=
  if String.eqb body "{}" then Member None
  else JsonThrows "Unexpected token in JSON at position 0".

Definition sample_clock : Clock := mkClock 10 10 10 10.

(** ten entries, 100 ms to 190 ms *)
Definition full_board : list Score :=
  map (fun n => entry (inject_Z n) "0f1e2d3c")
      [100; 110; 120; 130; 140; 150; 160; 170; 180; 190].

(** the seeded repository, with another writer committing top.json just
    before the fourth store call *)
Definition contended_repository (theirs : Doc) : GitHub :=
  mkGitHub (files seeded_repository) (fun _ => true) (Some "token"%string)
           [None; None; None; Some (TopJson, theirs)].

Definition post (value : Q) : Event :=
  mkEvent "POST" (inr (mkSubmission (JsNumber value) None None)).

(* ================================================================== *)
(** * Theorems *)
(* ================================================================== *)

(** ** Sorting *)

Lemma compare_ms_le (a b : Score) :
  Qle_bool (compare_ms a b) 0 = true <-> ms_le a b.
Proof.
  unfold compare_ms, ms_le. rewrite Qle_bool_iff. split; intros H; lra.
Qed.

Lemma compare_ms_gt (a b : Score) :
  Qle_bool (compare_ms a b) 0 = false -> (ms b < ms a)%Q.
Proof.
  intros H. destruct (Qlt_le_dec (ms b) (ms a)) as [Hlt | Hle]; [exact Hlt |].
  apply compare_ms_le in Hle. congruence.
Qed.

Section SortFacts.
Context {A : Type} (comparefn : A -> A -> Q).

Lemma sort_insert_perm (x : A) (l : list A) :
  Permutation (sort_insert comparefn x l) (x :: l).
Proof.
  induction l as [| y r IH]; simpl; [reflexivity |].
  destruct (Qle_bool (comparefn x y) 0); [reflexivity |].
  rewrite IH. apply perm_swap.
Qed.

Lemma sort_perm (l : list A) : Permutation (sort comparefn l) l.
Proof.
  induction l as [| x r IH]; simpl; [reflexivity |].
  rewrite sort_insert_perm. now rewrite IH.
Qed.

Lemma sort_length (l : list A) : length (sort comparefn l) = length l.
Proof. apply Permutation_length, sort_perm. Qed.
End SortFacts.

Lemma sort_insert_sorted (x : Score) (l : list Score) :
  StronglySorted ms_le l -> StronglySorted ms_le (sort_insert compare_ms x l).
Proof.
  induction l as [| y r IH]; intros Hs; simpl.
  - repeat constructor.
  - destruct (Qle_bool (compare_ms x y) 0) eqn:Hc.
    + apply compare_ms_le in Hc. inversion Hs as [| ? ? Hr Hy]; subst.
      constructor; [exact Hs |]. constructor; [exact Hc |].
      eapply List.Forall_impl; [| exact Hy]. intros z Hz. unfold ms_le in *. lra.
    + apply compare_ms_gt in Hc. inversion Hs as [| ? ? Hr Hy]; subst.
      constructor; [now apply IH |].
      eapply Permutation_Forall; [symmetry; apply sort_insert_perm |].
      constructor; [unfold ms_le; lra | exact Hy].
Qed.

Lemma sort_sorted (l : list Score) : StronglySorted ms_le (sort compare_ms l).
Proof.
  induction l as [| x r IH]; simpl; [constructor | now apply sort_insert_sorted].
Qed.

(** Stability: the entries that tie at any value keep their input order. *)
Lemma sort_insert_ties (v : Q) (x : Score) (l : list Score) :
  List.filter (has_ms v) (sort_insert compare_ms x l)
  = List.filter (has_ms v) (x :: l).
Proof.
  induction l as [| y r IH]; [reflexivity |].
  cbn [sort_insert]. destruct (Qle_bool (compare_ms x y) 0) eqn:Hc; [reflexivity |].
  apply compare_ms_gt in Hc.
  cbn [List.filter] in *. rewrite IH.
  destruct (has_ms v x) eqn:Hx, (has_ms v y) eqn:Hy; try reflexivity.
  unfold has_ms in Hx, Hy. apply Qeq_bool_iff in Hx, Hy. lra.
Qed.

Lemma sort_ties (v : Q) (l : list Score) :
  List.filter (has_ms v) (sort compare_ms l) = List.filter (has_ms v) l.
Proof.
  induction l as [| x r IH]; [reflexivity |].
  cbn [sort]. rewrite sort_insert_ties. cbn [List.filter]. now rewrite IH.
Qed.

Lemma sorted_app_le (l1 l2 : list Score) :
  StronglySorted ms_le (l1 ++ l2) ->
  StronglySorted ms_le l1 /\
  forall k d, In k l1 -> In d l2 -> ms_le k d.
Proof.
  induction l1 as [| x r IH]; simpl; intros Hs.
  - split; [constructor | intros k d []].
  - inversion Hs as [| ? ? Hr Hx]; subst. destruct (IH Hr) as [Hr1 Hr2].
    split.
    + constructor; [exact Hr1 |].
      rewrite List.Forall_forall in Hx |- *. intros z Hz. apply Hx, in_or_app. now left.
    + intros k d [-> | Hk] Hd.
      * rewrite List.Forall_forall in Hx. apply Hx, in_or_app. now right.
      * now apply Hr2.
Qed.

Lemma has_ms_refl (e : Score) : has_ms (ms e) e = true.
Proof. unfold has_ms. apply Qeq_bool_iff. reflexivity. Qed.

Lemma in_ties {v : Q} {e : Score} {l : list Score} {rest : list Score} :
  List.filter (has_ms v) l = e :: rest -> In e l.
Proof.
  intros H. assert (Hin : In e (List.filter (has_ms v) l)) by (rewrite H; now left).
  apply List.filter_In in Hin. tauto.
Qed.

(** An ascending list is determined by the order of its ties: whatever
    algorithm the engine runs, a stable ascending sort returns the list
    that [sort] computes. *)
Lemma stable_sorted_unique (l1 l2 : list Score) :
  StronglySorted ms_le l1 -> StronglySorted ms_le l2 ->
  (forall v, List.filter (has_ms v) l1 = List.filter (has_ms v) l2) ->
  l1 = l2.
Proof.
  revert l2. induction l1 as [| x r1 IH]; intros [| y r2] Hs1 Hs2 Hties.
  - reflexivity.
  - specialize (Hties (ms y)). cbn [List.filter] in Hties.
    rewrite has_ms_refl in Hties. discriminate.
  - specialize (Hties (ms x)). cbn [List.filter] in Hties.
    rewrite has_ms_refl in Hties. discriminate.
  - inversion Hs1 as [| ? ? Hr1 Hx]; inversion Hs2 as [| ? ? Hr2 Hy]; subst.
    rewrite List.Forall_forall in Hx, Hy.
    assert (Hhead : x = y).
    { pose proof (Hties (ms x)) as Hat_x. pose proof (Hties (ms y)) as Hat_y.
      cbn [List.filter] in Hat_x, Hat_y.
      rewrite has_ms_refl in Hat_x, Hat_y.
      destruct (has_ms (ms x) y) eqn:Hxy; [now injection Hat_x |].
      exfalso.
      assert (Hle : ms_le y x) by (apply Hy; exact (in_ties (eq_sym Hat_x))).
      assert (Hge : ms_le x y).
      { destruct (has_ms (ms y) x) eqn:Hyx.
        - unfold has_ms in Hyx. apply Qeq_bool_iff in Hyx. unfold ms_le. lra.
        - apply Hx. exact (in_ties Hat_y). }
      unfold has_ms in Hxy. apply Qeq_bool_neq in Hxy. unfold ms_le in *. lra. }
    subst y. f_equal. apply IH; [exact Hr1 | exact Hr2 |].
    intros v. specialize (Hties v). cbn [List.filter] in Hties.
    destruct (has_ms v x); [now injection Hties | exact Hties].
Qed.

(** What is kept followed by what is dropped is the sorted array. *)
Lemma updatedTop_droppedTop (currentTop : list Score) (newScore : Score) :
  updatedTop currentTop newScore ++ droppedTop currentTop newScore
  = sort compare_ms (currentTop ++ [newScore]).
Proof. apply firstn_skipn. Qed.

Lemma merge_perm (currentTop : list Score) (newScore : Score) :
  Permutation (updatedTop currentTop newScore ++ droppedTop currentTop newScore)
              (currentTop ++ [newScore]).
Proof. rewrite updatedTop_droppedTop. apply sort_perm. Qed.

Lemma updatedTop_sorted (currentTop : list Score) (newScore : Score) :
  StronglySorted ms_le (updatedTop currentTop newScore).
Proof.
  apply (sorted_app_le _ (droppedTop currentTop newScore)).
  rewrite updatedTop_droppedTop. apply sort_sorted.
Qed.

Lemma updatedTop_length (currentTop : list Score) (newScore : Score) :
  length (updatedTop currentTop newScore)
  = Nat.min capacity (S (length currentTop)).
Proof.
  unfold updatedTop. rewrite length_firstn, sort_length, length_app.
  change (length [newScore]) with 1%nat. lia.
Qed.

(** C1.  Merging appends the new entry to the current entries, sorts the
    whole ascending by value with ties kept in insertion order, and cuts
    the result at the capacity of 10: what is kept followed by what is
    dropped is a rearrangement of the appended list, ascending by value;
    for every value the entries tying at it appear in the order in which
    they were inserted (kept ones first); the kept part never exceeds the
    capacity; every dropped entry has a value at least as large as every
    kept one; and the kept part is the first 10 entries of any list that
    orders the appended entries ascending with ties in insertion order. *)
Theorem merge_sorts_and_truncates (currentTop : list Score) (newScore : Score) :
  let appended := currentTop ++ [newScore] in
  let kept := updatedTop currentTop newScore in
  let dropped := droppedTop currentTop newScore in
  Permutation (kept ++ dropped) appended /\
  StronglySorted ms_le (kept ++ dropped) /\
  StronglySorted ms_le kept /\
  (forall v, List.filter (has_ms v) kept ++ List.filter (has_ms v) dropped
             = List.filter (has_ms v) appended) /\
  length kept = Nat.min capacity (S (length currentTop)) /\
  (length kept <= capacity)%nat /\
  (forall k d, In k kept -> In d dropped -> (ms k <= ms d)%Q) /\
  (forall sorted,
     StronglySorted ms_le sorted ->
     (forall v, List.filter (has_ms v) sorted = List.filter (has_ms v) appended) ->
     firstn capacity sorted = kept).
Proof.
  intros appended kept dropped.
  pose proof (updatedTop_droppedTop currentTop newScore) as Hsplit.
  fold kept dropped appended in Hsplit.
  assert (Hsorted : StronglySorted ms_le (kept ++ dropped))
    by (rewrite Hsplit; apply sort_sorted).
  destruct (sorted_app_le _ _ Hsorted) as [Hkept Hle].
  pose proof (updatedTop_length currentTop newScore) as Hlen. fold kept in Hlen.
  repeat split.
  - rewrite Hsplit. apply sort_perm.
  - exact Hsorted.
  - exact Hkept.
  - intros v. rewrite <- List.filter_app, Hsplit. apply sort_ties.
  - exact Hlen.
  - rewrite Hlen. apply Nat.le_min_l.
  - exact Hle.
  - intros sorted Hs Hties. unfold kept, updatedTop. f_equal.
    apply stable_sorted_unique; [exact Hs | apply sort_sorted |].
    intros v. rewrite Hties. symmetry. apply sort_ties.
Qed.

(** ** The record flag *)

Lemma accepted_ms_nonzero (q : Q) : accepted_ms q -> Qeq_bool q 0 = false.
Proof.
  intros [Hlo _]. destruct (Qeq_bool q 0) eqn:E; [| reflexivity].
  apply Qeq_bool_iff in E. lra.
Qed.

(** The invariant is what the handlers maintain: a merge of an accepted
    entry into a board satisfying it yields a board satisfying it. *)
Lemma updatedTop_invariant (currentTop : list Score) (newScore : Score) :
  Forall (fun e => accepted_ms (ms e)) currentTop ->
  accepted_ms (ms newScore) ->
  board_invariant (updatedTop currentTop newScore).
Proof.
  intros Hall Hnew.
  pose proof (merge_perm currentTop newScore) as Hperm.
  repeat split;
    [apply updatedTop_sorted | | rewrite updatedTop_length; apply Nat.le_min_l].
  rewrite List.Forall_forall in *. intros e He.
  assert (Hin : In e (currentTop ++ [newScore])).
  { eapply Permutation_in; [exact Hperm |]. apply in_or_app. now left. }
  apply in_app_or in Hin. destruct Hin as [Hin | [<- | []]]; auto.
Qed.

Lemma board_invariant_nonzero (entries : list Score) :
  board_invariant entries -> Forall (fun e => ~ (ms e == 0)%Q) entries.
Proof.
  intros (_ & Hvalid & _). rewrite List.Forall_forall in *.
  intros e He Hzero. destruct (Hvalid e He) as [Hlo _]. lra.
Qed.

(** C3.  On a leaderboard whose entries are ascending by value and none of
    which has the value 0 (so on every leaderboard document of the data
    model, and on every board the handler has written), [isNewRecord] is
    true exactly when the new value is at most every value present before
    the insertion, that is at most the best one; it is true on an empty
    leaderboard, and false for a value strictly greater than the current
    best. *)
Theorem isNewRecord_iff_at_most_best (currentTop : list Score) (new_ms : Q)
    (Hsorted : StronglySorted ms_le currentTop)
    (Hnonzero : Forall (fun e => ~ (ms e == 0)%Q) currentTop) :
  (isNewRecord currentTop new_ms = true
   <-> forall e, In e currentTop -> (new_ms <= ms e)%Q) /\
  isNewRecord [] new_ms = true /\
  (forall best, In best currentTop ->
     (forall e, In e currentTop -> (ms best <= ms e)%Q) ->
     (ms best < new_ms)%Q ->
     isNewRecord currentTop new_ms = false).
Proof.
  assert (Hiff : isNewRecord currentTop new_ms = true
                 <-> forall e, In e currentTop -> (new_ms <= ms e)%Q).
  { destruct currentTop as [| first rest].
    - split; [intros _ e [] | reflexivity].
    - unfold isNewRecord, best_or_Infinity.
      inversion Hnonzero as [| ? ? Hfirst _]; subst.
      destruct (Qeq_bool (ms first) 0) eqn:Hzero;
        [apply Qeq_bool_iff in Hzero; contradiction |].
      cbn [le_Bound]. rewrite Qle_bool_iff.
      inversion Hsorted as [| ? ? _ Hle]; subst.
      rewrite List.Forall_forall in Hle.
      split.
      + intros H e [<- | He]; [exact H |].
        specialize (Hle e He). unfold ms_le in Hle. lra.
      + intros H. apply H. now left. }
  split; [exact Hiff |]. split; [reflexivity |].
  intros best Hin Hbest Hgt.
  apply not_true_is_false. intros E.
  pose proof (proj1 Hiff E best Hin). lra.
Qed.

(** ** The rank *)

Lemma findIndex_bounds {A : Type} (p : A -> bool) (l : list A) :
  -1 <= findIndex p l < Z.of_nat (length l).
Proof.
  induction l as [| x r IH]; cbn [findIndex length]; [lia |].
  destruct (p x); [lia |].
  destruct (findIndex p r <? 0) eqn:E; lia.
Qed.

Lemma findIndex_absent {A : Type} (p : A -> bool) (l : list A) :
  findIndex p l = -1 <-> forall x, In x l -> p x = false.
Proof.
  induction l as [| x r IH]; cbn [findIndex].
  - split; [intros _ y [] | reflexivity].
  - pose proof (findIndex_bounds p r) as Hb.
    destruct (p x) eqn:Hx.
    + split; [lia |]. intros H. specialize (H x (or_introl eq_refl)). congruence.
    + destruct (findIndex p r <? 0) eqn:E.
      * split; [| reflexivity]. intros _ y [<- | Hy]; [exact Hx |].
        apply IH; [lia | exact Hy].
      * split; [lia |]. intros H.
        assert (findIndex p r = -1) by (apply IH; intros y Hy; apply H; now right).
        lia.
Qed.

Lemma findIndex_found {A : Type} (p : A -> bool) (l : list A) :
  0 <= findIndex p l ->
  exists x, nth_error l (Z.to_nat (findIndex p l)) = Some x /\ p x = true.
Proof.
  induction l as [| x r IH]; cbn [findIndex]; [lia |].
  destruct (p x) eqn:Hx; [intros _; exists x; now split |].
  destruct (findIndex p r <? 0) eqn:E; [lia |].
  intros _. destruct IH as (y & Hy & Hpy); [lia |].
  exists y. split; [| exact Hpy].
  replace (Z.to_nat (findIndex p r + 1)) with (S (Z.to_nat (findIndex p r))) by lia.
  exact Hy.
Qed.

Lemma filter_length_perm {A : Type} (p : A -> bool) (l l' : list A) :
  Permutation l l' -> length (List.filter p l) = length (List.filter p l').
Proof.
  induction 1 as [| x l l' _ IH | x y l | l l' l'' _ IH1 _ IH2];
    cbn [List.filter]; try reflexivity.
  - destruct (p x); cbn [length]; now rewrite IH.
  - destruct (p x), (p y); reflexivity.
  - now rewrite IH1.
Qed.

Lemma filter_none {A : Type} (p : A -> bool) (l : list A) :
  (forall x, In x l -> p x = false) -> List.filter p l = [].
Proof.
  induction l as [| x r IH]; intros H; cbn [List.filter]; [reflexivity |].
  rewrite (H x (or_introl eq_refl)). apply IH. intros y Hy. apply H. now right.
Qed.

Lemma at_most_one_index {A : Type} (p : A -> bool) (l : list A) :
  (length (List.filter p l) <= 1)%nat ->
  forall i j x y,
    nth_error l i = Some x -> p x = true ->
    nth_error l j = Some y -> p y = true -> i = j.
Proof.
  induction l as [| a r IH]; intros Hlen i j x y Hi Hx Hj Hy.
  - destruct i; discriminate.
  - cbn [List.filter] in Hlen.
    assert (Htail : forall n z, nth_error r n = Some z -> p z = true ->
                                p a = true -> False).
    { intros n z Hn Hz Ha. rewrite Ha in Hlen. cbn [length] in Hlen.
      assert (Hin : In z (List.filter p r))
        by (apply List.filter_In; split; [eapply nth_error_In; eauto | exact Hz]).
      destruct (List.filter p r); [destruct Hin | cbn [length] in Hlen; lia]. }
    destruct i as [| i], j as [| j]; cbn [nth_error] in Hi, Hj.
    + reflexivity.
    + injection Hi as <-. exfalso. eauto.
    + injection Hj as <-. exfalso. eauto.
    + f_equal. apply (IH ltac:(destruct (p a); cbn [length] in Hlen; lia)
                         i j x y); assumption.
Qed.

(** With an id that no current entry carries, the entries of the merged
    board that [findIndex] can stop at are the new entry alone. *)
Section FreshId.
Variables (currentTop : list Score) (newScore : Score).
Hypothesis fresh : forall e, In e currentTop -> id e <> id newScore.

Lemma same_id_is_new (e : Score) :
  In e (updatedTop currentTop newScore) -> (same_id newScore) e = true -> e = newScore.
Proof using fresh.
  intros He Hid. apply String.eqb_eq in Hid.
  pose proof (merge_perm currentTop newScore) as Hperm.
  assert (Hin : In e (currentTop ++ [newScore])).
  { eapply Permutation_in; [exact Hperm |]. apply in_or_app. now left. }
  apply in_app_or in Hin. destruct Hin as [Hin | [<- | []]]; [| reflexivity].
  exfalso. exact (fresh e Hin Hid).
Qed.

Lemma same_id_once :
  (length (List.filter (same_id newScore) (updatedTop currentTop newScore)) <= 1)%nat.
Proof using fresh.
  pose proof (merge_perm currentTop newScore) as Hperm.
  apply (filter_length_perm (same_id newScore)) in Hperm.
  rewrite !List.filter_app, !length_app in Hperm.
  rewrite (filter_none (same_id newScore) currentTop) in Hperm.
  - cbn [List.filter length] in Hperm.
    destruct ((same_id newScore) newScore); cbn [length] in Hperm; lia.
  - intros e He. unfold same_id. apply String.eqb_neq. now apply fresh.
Qed.

Lemma rank_some_iff (r : Z) :
  rank currentTop newScore = Some r
  <-> 1 <= r /\
      nth_error (updatedTop currentTop newScore) (Z.to_nat (r - 1)) = Some newScore.
Proof using fresh.
  unfold rank, or_null, position.
  change (fun score => String.eqb (id score) (id newScore)) with (same_id newScore).
  set (kept := updatedTop currentTop newScore).
  pose proof (findIndex_bounds (same_id newScore) kept) as Hb.
  split.
  - intros H. destruct (findIndex (same_id newScore) kept + 1 =? 0) eqn:E; [discriminate |].
    injection H as <-. apply Z.eqb_neq in E.
    destruct (findIndex_found (same_id newScore) kept) as (x & Hx & Hpx); [lia |].
    split; [lia |].
    replace (findIndex (same_id newScore) kept + 1 - 1) with (findIndex (same_id newScore) kept) by lia.
    rewrite Hx. f_equal. apply same_id_is_new; [| exact Hpx].
    eapply nth_error_In; eauto.
  - intros [Hr Hnth].
    assert (Hnew : (same_id newScore) newScore = true) by apply String.eqb_refl.
    assert (Hne : findIndex (same_id newScore) kept <> -1).
    { intros Habs. rewrite findIndex_absent in Habs.
      specialize (Habs newScore (nth_error_In _ _ Hnth)). congruence. }
    destruct (findIndex_found (same_id newScore) kept) as (x & Hx & Hpx); [lia |].
    assert (Heq : Z.to_nat (findIndex (same_id newScore) kept) = Z.to_nat (r - 1))
      by (eapply (at_most_one_index (same_id newScore) kept same_id_once); eauto).
    assert (findIndex (same_id newScore) kept + 1 = r) by lia.
    destruct (findIndex (same_id newScore) kept + 1 =? 0) eqn:E; [lia | congruence].
Qed.

Lemma rank_none_iff :
  rank currentTop newScore = None
  <-> ~ In newScore (updatedTop currentTop newScore).
Proof using fresh.
  unfold rank, or_null, position.
  change (fun score => String.eqb (id score) (id newScore)) with (same_id newScore).
  set (kept := updatedTop currentTop newScore).
  pose proof (findIndex_bounds (same_id newScore) kept) as Hb.
  destruct (findIndex (same_id newScore) kept + 1 =? 0) eqn:E.
  - apply Z.eqb_eq in E. split; [intros _ Hin | reflexivity].
    assert (Habs : findIndex (same_id newScore) kept = -1) by lia.
    rewrite findIndex_absent in Habs. specialize (Habs _ Hin).
    unfold same_id in Habs. rewrite String.eqb_refl in Habs. discriminate.
  - apply Z.eqb_neq in E. split; [discriminate |]. intros Hnot. exfalso.
    destruct (findIndex_found (same_id newScore) kept) as (x & Hx & Hpx); [lia |].
    apply Hnot. rewrite <- (same_id_is_new x); [| | exact Hpx];
      eapply nth_error_In; eauto.
Qed.
End FreshId.

(** The rank is found by id.  When no current entry carries the new
    entry's id, the returned rank is the 1-based position of the new entry
    in the truncated result, and it is null exactly when the new entry is
    not in the truncated result, having been cut off beyond the capacity.
    In particular, with distinct ids, a first entry of value 142 on an
    empty leaderboard gets rank 1 and is a record, and a following entry of
    value 200 yields the entries [142, 200], rank 2, and no record. *)
Theorem rank_is_position_when_id_is_fresh
    (currentTop : list Score) (newScore first second : Score)
    (fresh : forall e, In e currentTop -> id e <> id newScore)
    (Hfirst : ms first = 142%Q) (Hsecond : ms second = 200%Q)
    (Hdistinct : id first <> id second) :
  (forall r, rank currentTop newScore = Some r
             <-> 1 <= r /\
                 nth_error (updatedTop currentTop newScore) (Z.to_nat (r - 1))
                 = Some newScore) /\
  (rank currentTop newScore = None
   <-> ~ In newScore (updatedTop currentTop newScore)) /\
  (rank currentTop newScore = None -> In newScore (droppedTop currentTop newScore)) /\
  (updatedTop [] first = [first] /\ rank [] first = Some 1
   /\ isNewRecord [] (ms first) = true) /\
  (updatedTop [first] second = [first; second] /\ rank [first] second = Some 2
   /\ isNewRecord [first] (ms second) = false).
Proof.
  split; [intros r; now apply rank_some_iff |].
  split; [now apply rank_none_iff |].
  split.
  { intros Hnone. apply rank_none_iff in Hnone; [| exact fresh].
    pose proof (merge_perm currentTop newScore) as Hperm.
    assert (Hin : In newScore (updatedTop currentTop newScore
                               ++ droppedTop currentTop newScore)).
    { eapply Permutation_in; [symmetry; exact Hperm |].
      apply in_or_app. right. now left. }
    apply in_app_or in Hin. tauto. }
  split.
  - unfold rank, position. cbn. rewrite String.eqb_refl. now repeat split.
  - unfold rank, position, updatedTop, isNewRecord, best_or_Infinity, compare_ms.
    cbn. rewrite Hfirst, Hsecond.
    replace (Qle_bool (142 - 200) 0) with true by reflexivity.
    replace (Qeq_bool 142 0) with false by reflexivity.
    cbn. apply String.eqb_neq in Hdistinct. rewrite Hdistinct, String.eqb_refl.
    now repeat split.
Qed.

(** C4, the code at the failing input.  The handler draws the id as eight
    hex digits of [Math.random()], under the comment that announces a
    unique id, and looks the new entry up by that id.  When the draw
    repeats a stored id the lookup finds the stored entry: a second entry
    of value 200 that draws the id of the first one (value 142) is merged
    into second place, which is the rank the claim gives it, and the rank
    reported for it is 1. *)
Lemma rank_reports_other_entry_on_shared_id :
  let first := mkScore 142 0 "1a2b3c4d" None None None in
  let second := mkScore 200 1 "1a2b3c4d" None None None in
  updatedTop [first] second = [first; second] /\
  rank [first] second = Some 1 /\
  nth_error (updatedTop [first] second) 0 <> Some second /\
  nth_error (updatedTop [first] second) 1 = Some second.
Proof.
  vm_compute. repeat split; discriminate.
Qed.

(** ** The season number *)

Lemma days_then_seasons (elapsed : Z) :
  elapsed / ms_per_day / 90 = elapsed / periodLength.
Proof.
  unfold periodLength. rewrite (Z.mul_comm 90 ms_per_day).
  apply Z.div_div; unfold ms_per_day; lia.
Qed.

(** C5.  From the epoch 2025-01-15T00:00:00Z on, the season number the
    code computes (whole days since the epoch, floor-divided by 90, plus 1)
    equals [floor((now - epoch) / periodLength) + 1] with a 90-day period,
    in the submission handler as in the season-reset handler, which
    therefore agree for the same [now]; it is at least 1, and it is the
    season the submission handler stamps on a new score. *)
Theorem currentSeason_matches_spec (now : Z) (Hnow : seasonStart <= now) :
  reset_currentSeason now = spec_currentSeason now /\
  submit_currentSeason now = spec_currentSeason now /\
  submit_currentSeason now = reset_currentSeason now /\
  1 <= reset_currentSeason now /\
  (forall submission clock random_id,
     at_season clock = now ->
     season (newScore_of Seasonal submission clock random_id)
     = Some (spec_currentSeason now)).
Proof.
  assert (Hsubmit : submit_currentSeason now = spec_currentSeason now).
  { unfold submit_currentSeason, spec_currentSeason, submit_daysSinceStart.
    now rewrite days_then_seasons. }
  assert (Hreset : reset_currentSeason now = spec_currentSeason now).
  { unfold reset_currentSeason, spec_currentSeason, reset_daysSinceStart.
    now rewrite days_then_seasons. }
  split; [| split; [| split; [| split]]].
  - exact Hreset.
  - exact Hsubmit.
  - now rewrite Hsubmit, Hreset.
  - rewrite Hreset. unfold spec_currentSeason.
    assert (0 <= (now - seasonStart) / periodLength).
    { apply Z.div_pos; [lia | unfold periodLength, ms_per_day; lia]. }
    lia.
  - intros submission clock random_id Hclock. cbn [newScore_of season].
    now rewrite Hclock, Hsubmit.
Qed.

(** ** Requests that never reach the store *)

Lemma invalid_reaction_time_iff (v : JsValue) :
  invalid_reaction_time v = false <-> in_domain v.
Proof.
  unfold invalid_reaction_time, in_domain, accepted_ms. split.
  - destruct v as [| | b | q | n | s |]; cbn; try discriminate;
      try (destruct b; discriminate); try (destruct n; discriminate).
    + intros H. apply orb_false_elim in H as [H Hgt].
      apply orb_false_elim in H as [_ Hlt].
      apply negb_false_iff, Qle_bool_iff in Hgt, Hlt. eauto.
    + destruct (negb (String.eqb s EmptyString)); discriminate.
  - intros (q & -> & Hlo & Hhi). cbn.
    assert (Hz : Qeq_bool q 0 = false) by (apply accepted_ms_nonzero; split; auto).
    apply Qle_bool_iff in Hlo, Hhi. now rewrite Hz, Hlo, Hhi.
Qed.

Lemma method_not_post (event : Event) :
  httpMethod event <> "POST"%string ->
  negb (String.eqb (httpMethod event) "POST") = true.
Proof. intros H. apply negb_true_iff, String.eqb_neq, H. Qed.

Lemma method_post (event : Event) :
  httpMethod event = "POST"%string ->
  negb (String.eqb (httpMethod event) "POST") = false.
Proof. intros ->. reflexivity. Qed.

(** C2.  A submission whose [ms] is not a number within [80, 1000]
    (below, above, zero, missing or of another type) is answered with
    HTTP 400 and the validation error, and the handler has made no external
    call at all by then: no store read, no store write, nothing mutated,
    whatever the surroundings are. *)
Theorem out_of_domain_rejected_before_store
    (v : Variant) (env : ProcessEnv) (clock : Clock) (random_id : string)
    (event : Event) (submission : Submission)
    (Hmethod : httpMethod event = "POST"%string)
    (Hbody : parsed event = inr submission)
    (Hout : ~ in_domain (sub_ms submission)) :
  forall (W : Type) (E : Environment W) (w : W),
    run E (submit_handler v env clock random_id event) w
    = (mkResponse 400 InvalidReactionTime, w, []).
Proof.
  intros W E w. unfold submit_handler, submit_body.
  rewrite (method_post _ Hmethod), Hbody.
  destruct (invalid_reaction_time (sub_ms submission)) eqn:Hinv.
  - reflexivity.
  - apply invalid_reaction_time_iff in Hinv. contradiction.
Qed.

(** C10.  A request whose method is not POST gets 405 Method Not Allowed
    from each of the three handlers, which make no external call for it:
    no store read, no store write, no token exchange. *)
Theorem non_post_is_405_without_calls
    (v : Variant) (json : string -> TokenMember) (env : ProcessEnv)
    (clock : Clock) (random_id : string)
    (date_now currentDate at_iat at_exp : Z) (event : Event)
    (Hmethod : httpMethod event <> "POST"%string) :
  forall (W : Type) (E : Environment W) (w : W),
    run E (submit_handler v env clock random_id event) w
    = (mkResponse 405 MethodNotAllowed, w, []) /\
    run E (reset_handler json env date_now currentDate event) w
    = (mkResponse 405 MethodNotAllowed, w, []) /\
    run E (debug_handler env at_iat at_exp event) w
    = (mkResponse 405 MethodNotAllowed, w, []).
Proof.
  intros W E w. unfold submit_handler, reset_handler, debug_handler.
  rewrite (method_not_post _ Hmethod). repeat split.
Qed.

(** ** Stepping a handler through arbitrary surroundings *)

Ltac unfold_handlers :=
  unfold submit_handler, submit_body, reset_handler, reset_body,
    debug_handler, debug_body, sign_jwt, exchange_token, get_current_files,
    updateGitHubFile, getGitHubToken, createOrUpdateFileContents,
    getGitHubFile_settled, try_catch, try_bind, throw, pure,
    response_of, world_of, calls_of in *.

Ltac answer E :=
  match goal with
  | |- context [match ?read with JsonThrows _ => _ | Member _ => _ end] =>
      destruct read as [? | [? |]] eqn:?
  | |- context [on_sign E ?k ?f ?i ?x ?s ?w] =>
      destruct (on_sign E k f i x s w) as [[? | ?] ?]
  | |- context [on_exchange E ?i ?j ?w] =>
      destruct (on_exchange E i j w) as [[? | ? ? | ?] ?]
  | |- context [on_get E ?a ?p ?w] =>
      destruct (on_get E a p w) as [[? | ? ? | [? ?]] ?]
  | |- context [on_put E ?a ?p ?c ?s ?m ?w] =>
      destruct (on_put E a p c s m w) as [[? | ? ? | []] ?]
  | |- context [on_settle E ?w] =>
      destruct (on_settle E w) as [[|] ?]
  end; cbn.

(** ** The archive label *)

(** C8 (as the code has it).  The season-reset handler never looks at the
    request beyond its method, so no season reaches it from the caller:
    whatever the request and the surroundings, every write to an archive
    path goes to the path of the season computed from the clock reading
    [currentDate] taken during the rotation, and the archive document
    written there carries that same clock-derived season. *)
Theorem archive_season_is_clock_season
    (json : string -> TokenMember)
    (env : ProcessEnv) (date_now currentDate : Z) (event : Event) :
  (forall other : Event,
     httpMethod other = httpMethod event ->
     reset_handler json env date_now currentDate other
     = reset_handler json env date_now currentDate event) /\
  forall (W : Type) (E : Environment W) (w : W)
         auth path content sha message reply season,
    In (StoreWrite auth path content sha message reply)
       (calls_of (run E (reset_handler json env date_now currentDate event) w)) ->
    path = ArchiveJson season ->
    season = reset_currentSeason currentDate /\
    exists top_scores total_players,
      content = ArchiveDoc (reset_currentSeason currentDate) currentDate
                           top_scores total_players.
Proof.
  split.
  { intros other Hsame. unfold reset_handler. now rewrite Hsame. }
  intros W E w auth path content sha message reply season.
  unfold_handlers.
  destruct (negb (String.eqb (httpMethod event) "POST")); cbn; [tauto |].
  destruct (missing (GITHUB_APP_ID env) || missing (GITHUB_INSTALLATION_ID env)
            || missing (GITHUB_PRIVATE_KEY env)); cbn; [tauto |].
  repeat (answer E; try tauto);
    intros Hin Hpath; subst path;
    repeat (destruct Hin as [Hin | Hin]; try discriminate Hin; try contradiction);
    injection Hin as _ <- <- _ _ _; (split; [reflexivity | do 2 eexists; reflexivity]).
Qed.

(** C8, the claim as worded fails: a board holding a season-1 entry,
    rotated on day 100 after the epoch, is archived under season 2, the
    season the clock gives at that moment; no archive for season 1 is
    written, and the request had no way to name the season. *)
Lemma archive_labelled_by_clock_not_by_board :
  let entry := mkScore 142 1736899300000 "1a2b3c4d" (Some "Ann"%string)
                       (Some "p1"%string) (Some 1) in
  let board := TopDoc (Some [entry]) 1736899300000 None None in
  let g := mkGitHub (<[TopJson := mkFile board 7%N]> ∅) (fun _ => true)
                    (Some "token"%string) [] in
  let env := mkProcessEnv (Some "1"%string) (Some "2"%string) (Some "key"%string) in
  let currentDate := seasonStart + 100 * ms_per_day in
  let request := mkEvent "POST" (inr (mkSubmission JsUndefined None None)) in
  let outcome := run github (reset_handler sample_json env currentDate currentDate request) g in
  season entry = Some 1 /\
  reset_currentSeason currentDate = 2 /\
  files (world_of outcome) !! ArchiveJson 2
  = Some (mkFile (ArchiveDoc 2 currentDate [entry] 1) 0%N) /\
  files (world_of outcome) !! ArchiveJson 1 = None.
Proof.
  vm_compute. repeat split.
Qed.

(** ** Stepping a handler through the store model *)

Ltac read_body :=
  match goal with
  | |- context [match ?read with JsonThrows _ => _ | Member _ => _ end] =>
      destruct read as [? | [? |]] eqn:?
  end; cbn.

Ltac github_step :=
  cbn; unfold github_sign, github_exchange, github_get, github_put,
         authorized, others_commit; cbn;
  rewrite ?String.eqb_refl; cbn.

(** ** Rotating twice *)

(** With the archive of the season in place, a rotation changes nothing in
    the store and is answered 500, whatever its configuration. *)
Lemma rotation_refused_when_archived
    (json : string -> TokenMember)
    (env : ProcessEnv) (date_now currentDate : Z) (event : Event)
    (g : GitHub) (f : File) :
  concurrent g = [] ->
  files g !! ArchiveJson (reset_currentSeason currentDate) = Some f ->
  httpMethod event = "POST"%string ->
  let outcome := run github (reset_handler json env date_now currentDate event) g in
  (exists details, response_of outcome = mkResponse 500 (FailedToResetSeason details)) /\
  world_of outcome = g.
Proof.
  intros Hquiet Harchived Hmethod.
  destruct g as [fs sg tok others]. cbn in Hquiet, Harchived. subst others.
  unfold_handlers. rewrite (method_post _ Hmethod).
  destruct (missing (GITHUB_APP_ID env) || missing (GITHUB_INSTALLATION_ID env)
            || missing (GITHUB_PRIVATE_KEY env)); cbn; [eauto |].
  github_step.
  destruct (GITHUB_PRIVATE_KEY env); cbn; [| eauto].
  destruct (sg NewlinesUnescaped); cbn; [| eauto].
  destruct tok as [token |]; repeat github_step.
  - destruct (fs !! TopJson) as [top |]; repeat github_step;
      rewrite Harchived; cbn; eauto.
  - read_body; repeat github_step; eauto.
Qed.

(** With the archive of the season in place and the rotation configured,
    the calls of a rotation are the signing, the exchange, the read of the
    board and the archive write, which the store refuses for its missing
    sha; the refusal is the answer's details. *)
Lemma configured_rotation_refused_at_archive
    (json : string -> TokenMember)
    (env : ProcessEnv) (date_now currentDate : Z) (event : Event)
    (g : GitHub) (f : File) (token : string) :
  concurrent g = [] ->
  files g !! ArchiveJson (reset_currentSeason currentDate) = Some f ->
  httpMethod event = "POST"%string ->
  missing (GITHUB_APP_ID env) = false ->
  missing (GITHUB_INSTALLATION_ID env) = false ->
  missing (GITHUB_PRIVATE_KEY env) = false ->
  signs g NewlinesUnescaped = true ->
  installation_token g = Some token ->
  let season := reset_currentSeason currentDate in
  let outcome := run github (reset_handler json env date_now currentDate event) g in
  response_of outcome
  = mkResponse 500 (FailedToResetSeason (Thrown "sha was not supplied")) /\
  exists jwt board document,
    calls_of outcome
    = [ Signing (GITHUB_PRIVATE_KEY env) NewlinesUnescaped
                (date_now / 1000 - 60) (date_now / 1000 + 600)
                (GITHUB_APP_ID env) (Jwt jwt);
        TokenExchange (GITHUB_INSTALLATION_ID env) jwt (Ok token);
        StoreRead (Some token) TopJson board;
        StoreWrite (Some token) (ArchiveJson season) document None
                   (ArchiveSeason season) (NotOk 422 "sha was not supplied") ].
Proof.
  intros Hquiet Harchived Hmethod Happ Hinstallation Hkey Hsigns Htoken.
  destruct g as [fs sg tok others]. cbn in Hquiet, Harchived, Hsigns, Htoken.
  subst others tok.
  unfold_handlers. rewrite (method_post _ Hmethod), Happ, Hinstallation, Hkey.
  github_step.
  destruct (GITHUB_PRIVATE_KEY env) as [key |]; [| discriminate Hkey].
  cbn. rewrite Hsigns. repeat github_step.
  destruct (fs !! TopJson) as [top |]; repeat github_step;
    rewrite Harchived; cbn; (split; [reflexivity | do 3 eexists; reflexivity]).
Qed.

Ltac store_step :=
  github_step; unfold commit;
  rewrite ?lookup_insert_eq; rewrite ?lookup_insert_ne by discriminate; cbn.

Ltac in_cases H :=
  cbn in H; repeat (destruct H as [H | H]);
  try discriminate H; try contradiction;
  inversion H; subst; try clear H.

Ltac pick_call := cbn; ((left; reflexivity) + (right; pick_call)).

Ltac from_call :=
  let H := fresh "Hcall" in intros H; in_cases H.

(** A rotation that got its archive written leaves it in the store; it
    signed and held the token the provider issues, and neither changes. *)
Lemma first_rotation_leaves_archive
    (json : string -> TokenMember)
    (env : ProcessEnv) (date_now currentDate : Z) (event : Event) (g : GitHub)
    (auth : option string) (archive : Doc) (message : CommitMessage) :
  concurrent g = [] ->
  let outcome := run github (reset_handler json env date_now currentDate event) g in
  In (StoreWrite auth (ArchiveJson (reset_currentSeason currentDate)) archive
                 None message (Ok tt)) (calls_of outcome) ->
  concurrent (world_of outcome) = [] /\
  (exists n, files (world_of outcome) !! ArchiveJson (reset_currentSeason currentDate)
             = Some (mkFile archive n)) /\
  signs (world_of outcome) NewlinesUnescaped = true /\
  exists token, auth = Some token /\ installation_token (world_of outcome) = Some token.
Proof.
  intros Hquiet.
  destruct g as [fs sg tok others]. cbn in Hquiet. subst others.
  unfold_handlers.
  destruct (negb (String.eqb (httpMethod event) "POST")); cbn; [from_call |].
  destruct (missing (GITHUB_APP_ID env) || missing (GITHUB_INSTALLATION_ID env)
            || missing (GITHUB_PRIVATE_KEY env)); cbn; [from_call |].
  github_step.
  destruct (GITHUB_PRIVATE_KEY env); cbn; [| from_call].
  destruct (sg NewlinesUnescaped) eqn:Hsigns; cbn; [| from_call].
  destruct tok as [token |]; repeat store_step.
  - destruct (fs !! TopJson) as [top |] eqn:Htop; repeat store_step;
      destruct (fs !! ArchiveJson (reset_currentSeason currentDate)) eqn:Harch;
      repeat store_step;
      try rewrite Htop; repeat store_step;
      try (destruct (fs !! LatestJson) eqn:Hlatest; repeat store_step);
      from_call;
      (split; [reflexivity |]; split; [eexists; reflexivity |];
       split; [exact Hsigns | eexists; split; reflexivity]).
  - read_body; repeat store_step; from_call.
Qed.

(** C7 (as the code has it).  After a rotation that wrote the archive of
    a season, a second rotation for the same season number, configured
    with credentials, fails: it signs, obtains the token, reads the board
    and sends the archive write, which carries no sha and which the store
    refuses because the path exists; that refused write is its last call
    and its only write; the handler answers with its one failure response,
    HTTP 500 "Failed to reset season" with the store's refusal as details;
    and the store, the archive of the first rotation included, is exactly
    as the first rotation left it. *)
Theorem second_rotation_refused_archive_kept
    (json : string -> TokenMember)
    (env env' : ProcessEnv) (t1 d1 t2 d2 : Z) (ev1 ev2 : Event) (g0 : GitHub)
    (auth : option string) (archive : Doc) (message : CommitMessage)
    (Hquiet : concurrent g0 = [])
    (Hfirst : In (StoreWrite auth (ArchiveJson (reset_currentSeason d1)) archive
                             None message (Ok tt))
                 (calls_of (run github (reset_handler json env t1 d1 ev1) g0)))
    (Hsame : reset_currentSeason d2 = reset_currentSeason d1)
    (Hmethod : httpMethod ev2 = "POST"%string)
    (Hcredentials : missing (GITHUB_APP_ID env') = false
                    /\ missing (GITHUB_INSTALLATION_ID env') = false
                    /\ missing (GITHUB_PRIVATE_KEY env') = false) :
  let season := reset_currentSeason d1 in
  let g1 := world_of (run github (reset_handler json env t1 d1 ev1) g0) in
  let second := run github (reset_handler json env' t2 d2 ev2) g1 in
  content <$> files g1 !! ArchiveJson season = Some archive /\
  response_of second
  = mkResponse 500 (FailedToResetSeason (Thrown "sha was not supplied")) /\
  (exists signing exchange board document,
     calls_of second
     = [ signing; exchange; StoreRead auth TopJson board;
         StoreWrite auth (ArchiveJson season) document None (ArchiveSeason season)
                    (NotOk 422 "sha was not supplied") ] /\
     is_store_call signing = false /\ is_store_call exchange = false) /\
  world_of second = g1 /\
  content <$> files (world_of second) !! ArchiveJson season = Some archive.
Proof.
  intros season g1 second.
  destruct (first_rotation_leaves_archive json env t1 d1 ev1 g0 auth archive message
              Hquiet Hfirst) as (Hquiet1 & (n & Harchived) & Hsigns & token & -> & Htoken).
  fold g1 in Hquiet1, Harchived, Hsigns, Htoken. fold season in Harchived.
  assert (Hkept : content <$> files g1 !! ArchiveJson season = Some archive)
    by now rewrite Harchived.
  unfold season in Harchived. rewrite <- Hsame in Harchived.
  destruct Hcredentials as (Happ & Hinstallation & Hkey).
  destruct (rotation_refused_when_archived json env' t2 d2 ev2 g1 _
              Hquiet1 Harchived Hmethod) as (_ & Hsame_world).
  destruct (configured_rotation_refused_at_archive json env' t2 d2 ev2 g1 _ token
              Hquiet1 Harchived Hmethod Happ Hinstallation Hkey Hsigns Htoken)
    as (Hanswer & jwt & board & document & Hcalls).
  fold second in Hsame_world, Hanswer, Hcalls. rewrite Hsame in Hcalls.
  split; [exact Hkept |]. split; [exact Hanswer |].
  split; [| split; [exact Hsame_world | now rewrite Hsame_world]].
  do 4 eexists. split; [exact Hcalls | split; reflexivity].
Qed.

(** C7, the claim as worded fails on the failure it names: the answer to
    a second rotation is the handler's one failure response, and a first
    rotation of a season that was never archived, stopped when the reset of
    an existing top.json is refused, gets the very same answer. *)
Lemma second_rotation_answer_is_not_specific :
  let env := mkProcessEnv (Some "1"%string) (Some "2"%string) (Some "key"%string) in
  let request := mkEvent "POST" (inr (mkSubmission JsUndefined None None)) in
  let rotate := run github (reset_handler sample_json env seasonStart seasonStart request) in
  let empty := mkGitHub ∅ (fun _ => true) (Some "token"%string) [] in
  let archived := world_of (rotate empty) in
  let unarchived :=
    mkGitHub (<[TopJson := mkFile (TopDoc (Some []) 0 None None) 7%N]> ∅)
             (fun _ => true) (Some "token"%string) [] in
  statusCode (response_of (rotate empty)) = 200 /\
  is_Some (files archived !! ArchiveJson 1) /\
  files unarchived !! ArchiveJson 1 = None /\
  response_of (rotate archived)
  = mkResponse 500 (FailedToResetSeason (Thrown "sha was not supplied")) /\
  response_of (rotate unarchived) = response_of (rotate archived).
Proof.
  vm_compute. repeat split. eauto.
Qed.

(** ** The latest pointer *)

(** Against any surroundings: a write to latest.json carries the new entry
    and the sha of a read of latest.json; it is issued as soon as both
    reads have succeeded; and top.json is written only after it was
    accepted. *)
Lemma latest_write_carries_sha_read
    (v : Variant) (env : ProcessEnv) (clock : Clock) (random_id : string)
    (event : Event) (submission : Submission)
    (Hbody : parsed event = inr submission) :
  let newScore := newScore_of v submission clock random_id in
  forall (W : Type) (E : Environment W) (w : W),
    let outcome := run E (submit_handler v env clock random_id event) w in
    (forall auth content sha message reply,
       In (StoreWrite auth LatestJson content sha message reply) (calls_of outcome) ->
       content = ScoreDoc newScore /\
       exists current s,
         sha = Some s /\
         In (StoreRead auth LatestJson (Ok (current, s))) (calls_of outcome)) /\
    (forall auth auth' current s top,
       In (StoreRead auth LatestJson (Ok (current, s))) (calls_of outcome) ->
       In (StoreRead auth' TopJson (Ok top)) (calls_of outcome) ->
       exists message reply,
         In (StoreWrite auth LatestJson (ScoreDoc newScore) (Some s) message reply)
            (calls_of outcome)) /\
    (forall auth content sha message reply,
       In (StoreWrite auth TopJson content sha message reply) (calls_of outcome) ->
       exists s message',
         In (StoreWrite auth LatestJson (ScoreDoc newScore) (Some s) message' (Ok tt))
            (calls_of outcome)).
Proof.
  intros newScore W E w. unfold_handlers. rewrite Hbody.
  destruct (negb (String.eqb (httpMethod event) "POST")); cbn;
    [repeat split; intros; contradiction |].
  destruct (invalid_reaction_time (sub_ms submission)); cbn;
    [repeat split; intros; contradiction |].
  destruct (GITHUB_PRIVATE_KEY env); cbn; [| repeat split; intros; contradiction].
  repeat (answer E);
    (split;
     [ intros auth content sha message' reply; from_call;
       (split; [reflexivity |]; do 2 eexists; split; [reflexivity |]; pick_call)
     | split;
       [ intros auth auth' current sha' top; from_call; from_call;
         do 2 eexists; pick_call
       | intros auth content sha message' reply; from_call;
         do 2 eexists; pick_call ] ]).
Qed.

(** With nobody else committing, the write is accepted and latest.json
    holds the new entry, whatever its rank. *)
Lemma latest_holds_new_entry_when_quiet
    (v : Variant) (env : ProcessEnv) (clock : Clock) (random_id : string)
    (event : Event) (submission : Submission) (g : GitHub)
    (key token : string) (latestFile topFile : File) :
  httpMethod event = "POST"%string ->
  parsed event = inr submission ->
  invalid_reaction_time (sub_ms submission) = false ->
  GITHUB_PRIVATE_KEY env = Some key ->
  (forall form, signs g form = true) ->
  installation_token g = Some token ->
  files g !! LatestJson = Some latestFile ->
  files g !! TopJson = Some topFile ->
  concurrent g = [] ->
  let newScore := newScore_of v submission clock random_id in
  let outcome := run github (submit_handler v env clock random_id event) g in
  statusCode (response_of outcome) = 200 /\
  files (world_of outcome) !! LatestJson
  = Some (mkFile (ScoreDoc newScore) (N.succ (sha latestFile))).
Proof.
  intros Hmethod Hbody Hvalid Hkey Hsigns Htoken Hlatest Htop Hquiet.
  destruct g as [fs sg tok others]. cbn in Hsigns, Htoken, Hlatest, Htop, Hquiet.
  subst tok others.
  unfold_handlers. rewrite (method_post _ Hmethod), Hbody, Hvalid, Hkey.
  repeat (store_step; rewrite ?Hsigns, ?Hlatest, ?Htop, ?N.eqb_refl).
  split; reflexivity.
Qed.

(** What a submission answers and leaves in top.json when nobody else
    commits: the merged board, the record flag and the rank defined above. *)
Lemma submission_answer_when_quiet
    (v : Variant) (env : ProcessEnv) (clock : Clock) (random_id : string)
    (event : Event) (submission : Submission) (g : GitHub)
    (key token : string) (latestFile topFile : File) :
  httpMethod event = "POST"%string ->
  parsed event = inr submission ->
  invalid_reaction_time (sub_ms submission) = false ->
  GITHUB_PRIVATE_KEY env = Some key ->
  (forall form, signs g form = true) ->
  installation_token g = Some token ->
  files g !! LatestJson = Some latestFile ->
  files g !! TopJson = Some topFile ->
  concurrent g = [] ->
  let newScore := newScore_of v submission clock random_id in
  let currentTop := currentTop_of (doc_top (content topFile)) in
  let outcome := run github (submit_handler v env clock random_id event) g in
  response_of outcome
  = mkResponse 200 (ScoreSaved newScore (isNewRecord currentTop (ms newScore))
                               (rank currentTop newScore)) /\
  files (world_of outcome) !! TopJson
  = Some (mkFile (TopDoc (Some (updatedTop currentTop newScore))
                         (at_timestamp clock) None None)
                 (N.succ (sha topFile))).
Proof.
  intros Hmethod Hbody Hvalid Hkey Hsigns Htoken Hlatest Htop Hquiet.
  destruct g as [fs sg tok others]. cbn in Hsigns, Htoken, Hlatest, Htop, Hquiet.
  subst tok others.
  unfold_handlers. rewrite (method_post _ Hmethod), Hbody, Hvalid, Hkey.
  repeat (store_step; rewrite ?Hsigns, ?Hlatest, ?Htop, ?N.eqb_refl).
  split; [| reflexivity]. unfold rank. now destruct v.
Qed.

(** The example of the specification, end to end: 142 ms on a board just
    reset, then 200 ms. *)
Example submit_142_then_200 :
  let first := run github (submit_handler Seasonal sample_env
                             (mkClock seasonStart seasonStart 0 0) "1a2b3c4d" (post 142))
                   reset_repository in
  let second := run github (submit_handler Seasonal sample_env
                              (mkClock seasonStart seasonStart 0 0) "5e6f7a8b" (post 200))
                    (world_of first) in
  let e142 := newScore_of Seasonal (mkSubmission (JsNumber 142) None None)
                          (mkClock seasonStart seasonStart 0 0) "1a2b3c4d" in
  let e200 := newScore_of Seasonal (mkSubmission (JsNumber 200) None None)
                          (mkClock seasonStart seasonStart 0 0) "5e6f7a8b" in
  response_of first = mkResponse 200 (ScoreSaved e142 true (Some 1)) /\
  response_of second = mkResponse 200 (ScoreSaved e200 false (Some 2)) /\
  (content <$> files (world_of second) !! TopJson)
  = Some (TopDoc (Some [e142; e200]) seasonStart None None) /\
  (content <$> files (world_of second) !! LatestJson) = Some (ScoreDoc e200).
Proof.
  vm_compute. repeat split.
Qed.

(** C6 (as the code has it).  On a submission that passes validation, the
    handler writes latest.json as soon as both reads have succeeded,
    whatever the rank of the entry, and writes top.json only once that
    write has been accepted; the write carries the new entry together with
    the sha returned by the read of latest.json, so the store applies it
    only while that version is current.  When nobody else commits in
    between, the write is accepted and latest.json holds exactly the entry
    just submitted. *)
Theorem latest_overwritten_under_sha_read
    (v : Variant) (env : ProcessEnv) (clock : Clock) (random_id : string)
    (event : Event) (submission : Submission)
    (Hmethod : httpMethod event = "POST"%string)
    (Hbody : parsed event = inr submission)
    (Hvalid : invalid_reaction_time (sub_ms submission) = false) :
  let newScore := newScore_of v submission clock random_id in
  (forall (W : Type) (E : Environment W) (w : W),
     let outcome := run E (submit_handler v env clock random_id event) w in
     (forall auth content sha message reply,
        In (StoreWrite auth LatestJson content sha message reply) (calls_of outcome) ->
        content = ScoreDoc newScore /\
        exists current s,
          sha = Some s /\
          In (StoreRead auth LatestJson (Ok (current, s))) (calls_of outcome)) /\
     (forall auth auth' current s top,
        In (StoreRead auth LatestJson (Ok (current, s))) (calls_of outcome) ->
        In (StoreRead auth' TopJson (Ok top)) (calls_of outcome) ->
        exists message reply,
          In (StoreWrite auth LatestJson (ScoreDoc newScore) (Some s) message reply)
             (calls_of outcome)) /\
     (forall auth content sha message reply,
        In (StoreWrite auth TopJson content sha message reply) (calls_of outcome) ->
        exists s message',
          In (StoreWrite auth LatestJson (ScoreDoc newScore) (Some s) message' (Ok tt))
             (calls_of outcome))) /\
  (forall (g : GitHub) (key token : string) (latestFile topFile : File),
     GITHUB_PRIVATE_KEY env = Some key ->
     (forall form, signs g form = true) ->
     installation_token g = Some token ->
     files g !! LatestJson = Some latestFile ->
     files g !! TopJson = Some topFile ->
     concurrent g = [] ->
     let outcome := run github (submit_handler v env clock random_id event) g in
     statusCode (response_of outcome) = 200 /\
     files (world_of outcome) !! LatestJson
     = Some (mkFile (ScoreDoc newScore) (N.succ (sha latestFile)))).
Proof.
  intros newScore. split.
  - intros W E w. now apply latest_write_carries_sha_read.
  - intros g key token latestFile topFile Hkey Hsigns Htoken Hlatest Htop Hquiet.
    eapply latest_holds_new_entry_when_quiet; eauto.
Qed.

(** C6, the claim as worded fails: the write of latest.json is conditional
    on the version read.  A valid submission of 142 ms whose reads both
    succeed, but during which another writer commits latest.json between
    the read and the write, has its write refused for the stale sha; the
    answer is 500 and latest.json holds the other writer's entry, not the
    one just submitted. *)
Lemma latest_write_refused_on_stale_sha :
  let old := mkScore 150 1 "1a2b3c4d" None None None in
  let other := mkScore 300 2 "9c0d1e2f" None None None in
  let g :=
    mkGitHub (<[LatestJson := mkFile (ScoreDoc old) 3%N]>
                (<[TopJson := mkFile (TopDoc (Some [old]) 1 None None) 5%N]> ∅))
             (fun _ => true) (Some "token"%string)
             [None; None; Some (LatestJson, ScoreDoc other)] in
  let env := mkProcessEnv (Some "1"%string) (Some "2"%string) (Some "key"%string) in
  let clock := mkClock 10 10 10 10 in
  let submission := mkSubmission (JsNumber 142) None None in
  let newScore := newScore_of ThreeField submission clock "5e6f7a8b" in
  let outcome :=
    run github (submit_handler ThreeField env clock "5e6f7a8b"
                  (mkEvent "POST" (inr submission))) g in
  invalid_reaction_time (sub_ms submission) = false /\
  In (StoreWrite (Some "token"%string) LatestJson (ScoreDoc newScore) (Some 3%N)
                 (FeatNewReactionTime 142) (NotOk 409 "sha does not match"))
     (calls_of outcome) /\
  response_of outcome
  = mkResponse 500 (FailedToSaveScore (FailedToUpdate LatestJson "sha does not match")) /\
  content <$> files (world_of outcome) !! LatestJson = Some (ScoreDoc other) /\
  content <$> files (world_of outcome) !! LatestJson <> Some (ScoreDoc newScore).
Proof.
  vm_compute. repeat split; try discriminate.
  repeat first [left; reflexivity | right].
Qed.

(** ** Error reporting *)

(** C9 (as the code has it).  Whatever the surroundings: when a call of a
    score submission fails, the answer is HTTP 500 "Failed to save score"
    whose details are the message thrown for a failed call (path and status
    for a refused read, path and the store's response text for a refused
    write, a fixed text for a refused token exchange, the rejection's own
    message otherwise); an answer of 200 means that no call failed; a body
    that does not parse is reported the same way and a value that fails
    validation as HTTP 400.  The message of a refused write does not depend
    on the status of the refusal.  During a rotation the failures of
    signing, of a rejected token exchange and of every write are reported
    likewise as HTTP 500 "Failed to reset season", with the message of the
    earliest of them; a failed read of the leaderboard is not: the rotation
    goes on and writes an empty archive. *)
Theorem errors_reported_with_message
    (v : Variant) (json : string -> TokenMember) (env : ProcessEnv)
    (clock : Clock) (random_id : string)
    (date_now currentDate : Z) (event : Event) :
  forall (W : Type) (E : Environment W) (w : W),
    let submitted := run E (submit_handler v env clock random_id event) w in
    let rotated := run E (reset_handler json env date_now currentDate event) w in
    let closing := reset_currentSeason currentDate in
    (forall c, In c (calls_of submitted) -> call_failed c = true ->
       exists c' e,
         In c' (calls_of submitted) /\ submit_error c' = Some e /\
         response_of submitted = mkResponse 500 (FailedToSaveScore e)) /\
    (statusCode (response_of submitted) = 200 ->
     Forall (fun c => call_failed c = false) (calls_of submitted)) /\
    (forall message,
       httpMethod event = "POST"%string -> parsed event = inl message ->
       response_of submitted = mkResponse 500 (FailedToSaveScore (Thrown message))) /\
    (forall submission,
       httpMethod event = "POST"%string -> parsed event = inr submission ->
       invalid_reaction_time (sub_ms submission) = true ->
       response_of submitted = mkResponse 400 InvalidReactionTime) /\
    (forall auth path content sha message status status' text,
       submit_error (StoreWrite auth path content sha message (NotOk status text))
       = submit_error (StoreWrite auth path content sha message (NotOk status' text))) /\
    (forall e, first_error reset_error (calls_of rotated) = Some e ->
               response_of rotated = mkResponse 500 (FailedToResetSeason e)) /\
    (forall auth reply,
       In (StoreRead auth TopJson reply) (calls_of rotated) ->
       (forall file, reply <> Ok file) ->
       exists answer,
         In (StoreWrite auth (ArchiveJson closing)
                        (ArchiveDoc closing currentDate [] 0) None
                        (ArchiveSeason closing) answer)
            (calls_of rotated)).
Proof.
  intros W E w submitted rotated closing. subst submitted rotated closing.
  split; [| split; [| split; [| split; [| split; [| split]]]]].
  - unfold_handlers.
    destruct (negb (String.eqb (httpMethod event) "POST")); cbn; [intros ? [] |].
    destruct (parsed event) as [message | submission]; cbn; [intros ? [] |].
    destruct (invalid_reaction_time (sub_ms submission)); cbn; [intros ? [] |].
    destruct (GITHUB_PRIVATE_KEY env); cbn; [| intros ? []].
    repeat (answer E); intros c Hc Hfailed;
      first [ now in_cases Hc
            | do 2 eexists; split; [pick_call | split; reflexivity] ].
  - unfold_handlers.
    destruct (negb (String.eqb (httpMethod event) "POST")); cbn; [discriminate |].
    destruct (parsed event) as [message | submission]; cbn; [discriminate |].
    destruct (invalid_reaction_time (sub_ms submission)); cbn; [discriminate |].
    destruct (GITHUB_PRIVATE_KEY env); cbn; [| discriminate].
    repeat (answer E); intros H; try discriminate H;
      repeat constructor.
  - intros message Hmethod Hbody. unfold_handlers.
    now rewrite (method_post _ Hmethod), Hbody.
  - intros submission Hmethod Hbody Hinvalid. unfold_handlers.
    now rewrite (method_post _ Hmethod), Hbody, Hinvalid.
  - reflexivity.
  - unfold_handlers.
    destruct (negb (String.eqb (httpMethod event) "POST")); cbn; [discriminate |].
    destruct (missing (GITHUB_APP_ID env) || missing (GITHUB_INSTALLATION_ID env)
              || missing (GITHUB_PRIVATE_KEY env)); cbn; [discriminate |].
    repeat (answer E); intros e He; try discriminate He;
      injection He as <-; reflexivity.
  - unfold_handlers.
    destruct (negb (String.eqb (httpMethod event) "POST")); cbn; [contradiction |].
    destruct (missing (GITHUB_APP_ID env) || missing (GITHUB_INSTALLATION_ID env)
              || missing (GITHUB_PRIVATE_KEY env)); cbn; [contradiction |].
    repeat (answer E); intros auth reply Hread Hfailed; in_cases Hread;
      try (exfalso; eapply Hfailed; reflexivity);
      eexists; cbn; repeat first [left; reflexivity | right].
Qed.

(** C9, the claim as worded fails twice.  An error is swallowed: a
    rotation whose read of the leaderboard fails (404 on an empty store)
    goes on and answers 200.  And the class of a failed write does not
    reach the caller: a version conflict (409) and a server-side failure
    (503) on the leaderboard write, given the same response text, produce
    the same answer. *)
Lemma read_error_swallowed_and_status_dropped :
  let env := mkProcessEnv (Some "1"%string) (Some "2"%string) (Some "key"%string) in
  let request := mkEvent "POST" (inr (mkSubmission (JsNumber 142) None None)) in
  let empty := mkGitHub ∅ (fun _ => true) (Some "token"%string) [] in
  let rotated := run github (reset_handler sample_json env seasonStart seasonStart request) empty in
  let refusing (status : Z) :=
    scripted (mkScript (Jwt "jwt") (Ok "token"%string)
                (fun _ => Ok (TopDoc (Some []) 0 None None, 1%N))
                (fun path => match path with
                             | TopJson => NotOk status "refused"
                             | _ => Ok tt
                             end)
                true) in
  let submit (status : Z) :=
    run (refusing status)
        (submit_handler Seasonal env (mkClock 10 10 10 10) "5e6f7a8b" request) tt in
  (In (StoreRead (Some "token"%string) TopJson (NotOk 404 "Not Found"))
      (calls_of rotated)
   /\ statusCode (response_of rotated) = 200) /\
  (response_of (submit 409) = response_of (submit 503)
   /\ response_of (submit 409)
      = mkResponse 500 (FailedToSaveScore (FailedToUpdate TopJson "refused"))).
Proof.
  vm_compute. repeat split.
  repeat first [left; reflexivity | right].
Qed.

(* ================================================================== *)
(** * The statements at concrete inputs *)
(* ================================================================== *)

(** Eleven entries merged with a twelfth: the slowest ones are cut. *)
Lemma merge_sorts_and_truncates_witness :
  let board :=
    map (fun n => entry (inject_Z n) "8a9b0c1d")
        [100; 110; 120; 130; 140; 150; 160; 170; 180; 190; 200] in
  In (entry 180 "8a9b0c1d") (updatedTop board (entry 105 "8a9b0c1d")) /\
  In (entry 200 "8a9b0c1d") (droppedTop board (entry 105 "8a9b0c1d")) /\
  (ms (entry 180 "8a9b0c1d") <= ms (entry 200 "8a9b0c1d"))%Q.
Proof.
  intros board.
  assert (Hkept : In (entry 180 "8a9b0c1d") (updatedTop board (entry 105 "8a9b0c1d")))
    by (vm_compute; repeat first [left; reflexivity | right]).
  assert (Hdropped : In (entry 200 "8a9b0c1d") (droppedTop board (entry 105 "8a9b0c1d")))
    by (vm_compute; repeat first [left; reflexivity | right]).
  repeat split; [exact Hkept | exact Hdropped |].
  exact (proj1 (proj2 (proj2 (proj2 (proj2 (proj2 (proj2
           (merge_sorts_and_truncates board (entry 105 "8a9b0c1d"))))))))
           (entry 180 "8a9b0c1d") (entry 200 "8a9b0c1d") Hkept Hdropped).
Defined.

Lemma isNewRecord_iff_at_most_best_witness :
  board_invariant [entry 142 "1a2b3c4d"] /\
  isNewRecord [entry 142 "1a2b3c4d"] 200 = false.
Proof.
  assert (Hboard : board_invariant [entry 142 "1a2b3c4d"]).
  { repeat split.
    - repeat constructor.
    - repeat constructor; cbn; lra.
    - cbn. unfold capacity. lia. }
  split; [exact Hboard |].
  apply (proj2 (proj2 (isNewRecord_iff_at_most_best [entry 142 "1a2b3c4d"] 200
                         (proj1 Hboard) (board_invariant_nonzero _ Hboard)))
               (entry 142 "1a2b3c4d")).
  - now left.
  - intros e [<- | []]. cbn. lra.
  - cbn. lra.
Defined.

Lemma rank_is_position_when_id_is_fresh_witness :
  (forall e, In e [entry 100 "0f1e2d3c"] -> id e <> id (entry 120 "4b5a6978")) /\
  rank [entry 100 "0f1e2d3c"] (entry 120 "4b5a6978") = Some 2.
Proof.
  assert (fresh : forall e, In e [entry 100 "0f1e2d3c"] -> id e <> id (entry 120 "4b5a6978")).
  { intros e [<- | []]. discriminate. }
  split; [exact fresh |].
  apply (proj1 (rank_is_position_when_id_is_fresh
                  [entry 100 "0f1e2d3c"] (entry 120 "4b5a6978") (entry 142 "1a2b3c4d") (entry 200 "5e6f7a8b")
                  fresh eq_refl eq_refl ltac:(discriminate)) 2).
  split; [lia | reflexivity].
Defined.

Lemma currentSeason_matches_spec_witness :
  let now := seasonStart + 100 * ms_per_day in
  seasonStart <= now /\ reset_currentSeason now = spec_currentSeason now.
Proof.
  intros now.
  assert (Hnow : seasonStart <= now) by (unfold now, ms_per_day; lia).
  split; [exact Hnow |].
  exact (proj1 (currentSeason_matches_spec now Hnow)).
Defined.

Lemma out_of_domain_rejected_before_store_witness :
  ~ in_domain (JsNumber 50) /\
  run github (submit_handler Seasonal sample_env (mkClock 10 10 10 10) "5e6f7a8b" (post 50))
      empty_repository
  = (mkResponse 400 InvalidReactionTime, empty_repository, []).
Proof.
  assert (Hout : ~ in_domain (JsNumber 50)).
  { intros (q & Hq & Hlo & _). injection Hq as <-. revert Hlo. cbn. lra. }
  split; [exact Hout |].
  exact (out_of_domain_rejected_before_store Seasonal sample_env
           (mkClock 10 10 10 10) "5e6f7a8b" (post 50) (mkSubmission (JsNumber 50) None None)
           eq_refl eq_refl Hout GitHub github empty_repository).
Defined.

Lemma non_post_is_405_without_calls_witness :
  let event := mkEvent "GET" (inr (mkSubmission (JsNumber 142) None None)) in
  httpMethod event <> "POST"%string /\
  run github (reset_handler sample_json sample_env 10 10 event) empty_repository
  = (mkResponse 405 MethodNotAllowed, empty_repository, []).
Proof.
  intros event.
  assert (Hmethod : httpMethod event <> "POST"%string) by discriminate.
  split; [exact Hmethod |].
  exact (proj1 (proj2 (non_post_is_405_without_calls Seasonal sample_json sample_env
                         (mkClock 10 10 10 10) "5e6f7a8b" 10 10 10 10 event Hmethod
                         GitHub github empty_repository))).
Defined.

Lemma latest_overwritten_under_sha_read_witness :
  let clock := mkClock 10 10 10 10 in
  let newScore := newScore_of Seasonal (mkSubmission (JsNumber 142) None None) clock "5e6f7a8b" in
  let outcome :=
    run github (submit_handler Seasonal sample_env clock "5e6f7a8b" (post 142))
        seeded_repository in
  invalid_reaction_time (JsNumber 142) = false /\
  files seeded_repository !! LatestJson = Some (mkFile (ScoreDoc (entry 150 "1a2b3c4d")) 3%N) /\
  files (world_of outcome) !! LatestJson = Some (mkFile (ScoreDoc newScore) 4%N).
Proof.
  intros clock newScore outcome.
  split; [reflexivity |]. split; [reflexivity |].
  exact (proj2 (proj2 (latest_overwritten_under_sha_read Seasonal sample_env clock "5e6f7a8b"
                         (post 142) (mkSubmission (JsNumber 142) None None)
                         eq_refl eq_refl eq_refl)
                      seeded_repository "key"%string "token"%string
                      (mkFile (ScoreDoc (entry 150 "1a2b3c4d")) 3%N)
                      (mkFile (TopDoc (Some [entry 150 "1a2b3c4d"]) 1 None None) 5%N)
                      eq_refl (fun _ => eq_refl) eq_refl eq_refl eq_refl eq_refl)).
Defined.

Lemma second_rotation_refused_archive_kept_witness :
  let rotate := fun date =>
    run github (reset_handler sample_json sample_env date date (post 1)) in
  let refused := mkResponse 500 (FailedToResetSeason (Thrown "sha was not supplied")) in
  let first := rotate seasonStart empty_repository in
  let second := rotate (seasonStart + ms_per_day) (world_of first) in
  let first' := rotate seasonStart seeded_repository in
  let second' := rotate (seasonStart + ms_per_day) (world_of first') in
  (In (StoreWrite (Some "token"%string) (ArchiveJson 1) (ArchiveDoc 1 seasonStart [] 0)
                  None (ArchiveSeason 1) (Ok tt)) (calls_of first) /\
   response_of second = refused /\
   world_of second = world_of first) /\
  (In (StoreWrite (Some "token"%string) (ArchiveJson 1)
                  (ArchiveDoc 1 seasonStart [entry 150 "1a2b3c4d"] 1)
                  None (ArchiveSeason 1) (Ok tt)) (calls_of first') /\
   response_of second' = refused /\
   content <$> files (world_of second') !! ArchiveJson 1
   = Some (ArchiveDoc 1 seasonStart [entry 150 "1a2b3c4d"] 1)).
Proof.
  intros rotate refused first second first' second'.
  assert (Hfirst : In (StoreWrite (Some "token"%string)
                         (ArchiveJson (reset_currentSeason seasonStart))
                         (ArchiveDoc 1 seasonStart [] 0)
                         None (ArchiveSeason 1) (Ok tt)) (calls_of first))
    by (vm_compute; repeat first [left; reflexivity | right]).
  assert (Hfirst' : In (StoreWrite (Some "token"%string)
                          (ArchiveJson (reset_currentSeason seasonStart))
                          (ArchiveDoc 1 seasonStart [entry 150 "1a2b3c4d"] 1)
                          None (ArchiveSeason 1) (Ok tt)) (calls_of first'))
    by (vm_compute; repeat first [left; reflexivity | right]).
  destruct (second_rotation_refused_archive_kept sample_json sample_env sample_env
              seasonStart seasonStart (seasonStart + ms_per_day)
              (seasonStart + ms_per_day) (post 1) (post 1) empty_repository
              (Some "token"%string) (ArchiveDoc 1 seasonStart [] 0) (ArchiveSeason 1)
              eq_refl Hfirst eq_refl eq_refl (conj eq_refl (conj eq_refl eq_refl)))
    as (_ & Hanswer & _ & Hworld & _).
  destruct (second_rotation_refused_archive_kept sample_json sample_env sample_env
              seasonStart seasonStart (seasonStart + ms_per_day)
              (seasonStart + ms_per_day) (post 1) (post 1) seeded_repository
              (Some "token"%string)
              (ArchiveDoc 1 seasonStart [entry 150 "1a2b3c4d"] 1) (ArchiveSeason 1)
              eq_refl Hfirst' eq_refl eq_refl (conj eq_refl (conj eq_refl eq_refl)))
    as (_ & Hanswer' & _ & _ & Hkept').
  split.
  - split; [exact Hfirst |]. split; [exact Hanswer | exact Hworld].
  - split; [exact Hfirst' |]. split; [exact Hanswer' | exact Hkept'].
Defined.

Lemma archive_season_is_clock_season_witness :
  let rotated := run github (reset_handler sample_json sample_env seasonStart seasonStart (post 1))
                     empty_repository in
  In (StoreWrite (Some "token"%string) (ArchiveJson 1) (ArchiveDoc 1 seasonStart [] 0)
                 None (ArchiveSeason 1) (Ok tt)) (calls_of rotated) /\
  1 = reset_currentSeason seasonStart.
Proof.
  intros rotated.
  assert (Hcall : In (StoreWrite (Some "token"%string) (ArchiveJson 1)
                        (ArchiveDoc 1 seasonStart [] 0)
                        None (ArchiveSeason 1) (Ok tt)) (calls_of rotated))
    by (vm_compute; repeat first [left; reflexivity | right]).
  split; [exact Hcall |].
  exact (proj1 (proj2 (archive_season_is_clock_season sample_json sample_env seasonStart
                         seasonStart (post 1))
                      GitHub github empty_repository _ _ _ _ _ _ 1 Hcall eq_refl)).
Defined.

Lemma errors_reported_with_message_witness :
  let submitted :=
    run (scripted refusing_exchange)
        (submit_handler Seasonal sample_env (mkClock 10 10 10 10) "5e6f7a8b" (post 142)) tt in
  let refused := TokenExchange (Some "2"%string) "jwt" (NotOk 401 "Bad credentials") in
  In refused (calls_of submitted) /\
  call_failed refused = true /\
  exists c' e,
    In c' (calls_of submitted) /\ submit_error c' = Some e /\
    response_of submitted = mkResponse 500 (FailedToSaveScore e).
Proof.
  intros submitted refused.
  assert (Hcall : In refused (calls_of submitted))
    by (vm_compute; repeat first [left; reflexivity | right]).
  split; [exact Hcall |]. split; [reflexivity |].
  exact (proj1 (errors_reported_with_message Seasonal sample_json sample_env
                  (mkClock 10 10 10 10) "5e6f7a8b" 10 10 (post 142)
                  unit (scripted refusing_exchange) tt)
               refused Hcall eq_refl).
Defined.

(* ================================================================== *)
(** * Further properties of the aggregator *)
(* ================================================================== *)

Lemma sorted_cons_app (l1 l2 : list Score) (x : Score) :
  StronglySorted ms_le l1 -> StronglySorted ms_le l2 ->
  (forall e, In e l1 -> ms_le e x) -> (forall e, In e l2 -> ms_le x e) ->
  StronglySorted ms_le (l1 ++ x :: l2).
Proof.
  intros H1 H2 Hlo Hhi. induction l1 as [| a r IH]; cbn [app].
  - constructor; [exact H2 |]. rewrite List.Forall_forall. exact Hhi.
  - inversion H1 as [| ? ? Hr Ha]; subst. constructor.
    + apply IH; [exact Hr |]. intros e He. apply Hlo. now right.
    + rewrite List.Forall_forall in Ha |- *. intros e He.
      apply in_app_or in He. destruct He as [He | [<- | He]].
      * now apply Ha.
      * apply Hlo. now left.
      * assert (ms_le a x) by (apply Hlo; now left).
        specialize (Hhi e He). unfold ms_le in *. lra.
Qed.

Lemma sorted_filter (p : Score -> bool) (l : list Score) :
  StronglySorted ms_le l -> StronglySorted ms_le (List.filter p l).
Proof.
  induction 1 as [| a r Hr IH Ha]; cbn [List.filter]; [constructor |].
  destruct (p a); [| exact IH]. constructor; [exact IH |].
  rewrite List.Forall_forall in Ha |- *. intros e He.
  apply List.filter_In in He. now apply Ha.
Qed.

(** An ascending board is its entries up to a bound followed by the rest. *)
Lemma sorted_split_at (bound : Q) (l : list Score) :
  StronglySorted ms_le l ->
  List.filter (at_most bound) l ++ List.filter (above bound) l = l.
Proof.
  induction 1 as [| a r Hr IH Ha]; [reflexivity |].
  cbn [List.filter]. unfold at_most at 1, above at 1.
  destruct (Qle_bool (ms a) bound) eqn:Hle; cbn [negb app].
  - now rewrite IH.
  - assert (Hnone : List.filter (at_most bound) r = []).
    { apply filter_none. intros e He. rewrite List.Forall_forall in Ha.
      specialize (Ha e He). unfold at_most.
      destruct (Qle_bool (ms e) bound) eqn:Hle'; [| reflexivity].
      apply Qle_bool_iff in Hle'.
      assert (Hab : ~ (ms a <= bound)%Q)
        by (intros Hc; apply Qle_bool_iff in Hc; congruence).
      unfold ms_le in Ha. exfalso. apply Hab. lra. }
    rewrite Hnone in IH |- *. cbn [app] in *. now rewrite IH.
Qed.

Lemma ties_not_above (v bound : Q) (l : list Score) :
  (v == bound)%Q ->
  List.filter (has_ms v) (List.filter (above bound) l) = [].
Proof.
  intros Hv. apply filter_none. intros e He.
  apply List.filter_In in He. destruct He as [_ Habove].
  unfold above in Habove. apply negb_true_iff in Habove.
  unfold has_ms. destruct (Qeq_bool (ms e) v) eqn:Heq; [| reflexivity].
  apply Qeq_bool_iff in Heq.
  assert (Hle : Qle_bool (ms e) bound = true) by (apply Qle_bool_iff; lra).
  congruence.
Qed.

(** On an ascending board the sorted array is the board with the new entry
    put behind every entry whose value is at most its own. *)
Lemma sort_places_new_entry (currentTop : list Score) (newScore : Score) :
  StronglySorted ms_le currentTop ->
  sort compare_ms (currentTop ++ [newScore])
  = List.filter (at_most (ms newScore)) currentTop
    ++ newScore :: List.filter (above (ms newScore)) currentTop.
Proof.
  intros Hsorted. symmetry.
  apply stable_sorted_unique; [| apply sort_sorted |].
  - apply sorted_cons_app; try (apply sorted_filter; exact Hsorted).
    + intros e He. apply List.filter_In in He. destruct He as [_ He].
      unfold at_most in He. apply Qle_bool_iff in He. exact He.
    + intros e He. apply List.filter_In in He. destruct He as [_ He].
      unfold above in He. apply negb_true_iff in He.
      destruct (Qlt_le_dec (ms newScore) (ms e)) as [Hlt | Hle].
      * unfold ms_le. lra.
      * apply Qle_bool_iff in Hle. congruence.
  - intros v. rewrite sort_ties.
    rewrite <- (sorted_split_at (ms newScore) currentTop Hsorted) at 3.
    rewrite !List.filter_app. cbn [List.filter].
    destruct (has_ms v newScore) eqn:Hv.
    + unfold has_ms in Hv. apply Qeq_bool_iff in Hv.
      rewrite (ties_not_above v (ms newScore)) by (symmetry; exact Hv).
      now rewrite app_nil_r.
    + now rewrite app_nil_r.
Qed.

Lemma updatedTop_on_sorted (currentTop : list Score) (newScore : Score) :
  StronglySorted ms_le currentTop ->
  updatedTop currentTop newScore
  = firstn capacity (List.filter (at_most (ms newScore)) currentTop
                     ++ newScore :: List.filter (above (ms newScore)) currentTop).
Proof.
  intros Hsorted. unfold updatedTop. now rewrite sort_places_new_entry.
Qed.

Lemma in_firstn {A : Type} (n : nat) (l : list A) (x : A) :
  In x (firstn n l) -> In x l.
Proof.
  intros H. rewrite <- (firstn_skipn n l). apply in_or_app. now left.
Qed.

Lemma rank_by_count (currentTop : list Score) (newScore : Score) :
  StronglySorted ms_le currentTop ->
  (forall e, In e currentTop -> id e <> id newScore) ->
  let ahead := length (List.filter (at_most (ms newScore)) currentTop) in
  rank currentTop newScore
  = if (ahead <? capacity)%nat then Some (Z.of_nat ahead + 1) else None.
Proof.
  intros Hsorted fresh ahead.
  pose proof (updatedTop_on_sorted currentTop newScore Hsorted) as Hkept.
  destruct (ahead <? capacity)%nat eqn:Hroom.
  - apply Nat.ltb_lt in Hroom. apply rank_some_iff; [exact fresh |].
    split; [lia |].
    replace (Z.to_nat (Z.of_nat ahead + 1 - 1)) with ahead by lia.
    rewrite Hkept, nth_error_firstn.
    destruct (ahead <? capacity)%nat eqn:Hlt;
      [| apply Nat.ltb_ge in Hlt; lia].
    rewrite nth_error_app2 by (unfold ahead; lia).
    unfold ahead. now rewrite Nat.sub_diag.
  - apply Nat.ltb_ge in Hroom. apply rank_none_iff; [exact fresh |].
    rewrite Hkept, firstn_app.
    replace (capacity - length (List.filter (at_most (ms newScore)) currentTop))%nat
      with 0%nat by (unfold ahead in Hroom; lia).
    cbn [firstn]. rewrite app_nil_r. intros Hin.
    apply in_firstn, List.filter_In in Hin. destruct Hin as [Hin _].
    exact (fresh newScore Hin eq_refl).
Qed.

(** X1.  Successive submissions keep the leaderboard well formed: starting
    from a board of accepted values, merging any sequence of accepted
    entries leaves a board that is ascending by value, made of accepted
    values, and no longer than 10. *)
Theorem successive_merges_keep_board_invariant
    (start entries : list Score)
    (Hstart : Forall (fun e => accepted_ms (ms e)) start)
    (Hentries : Forall (fun e => accepted_ms (ms e)) entries)
    (Hsome : entries <> []) :
  board_invariant (fold_left updatedTop entries start).
Proof.
  revert start Hstart Hsome.
  induction entries as [| e rest IH]; intros start Hstart Hsome; [congruence |].
  inversion Hentries as [| ? ? He Hrest]; subst. cbn [fold_left].
  pose proof (updatedTop_invariant start e Hstart He) as Hboard.
  destruct rest as [| e' rest']; [exact Hboard |].
  apply IH; [exact Hrest | apply Hboard | discriminate].
Qed.

(** X2.  The order of arrival does not matter for distinct values: two
    entries with different values merged into an empty board in either
    order give the faster one first. *)
Theorem two_entries_either_order (e1 e2 : Score) (Hlt : (ms e1 < ms e2)%Q) :
  updatedTop (updatedTop [] e2) e1 = [e1; e2] /\
  updatedTop (updatedTop [] e1) e2 = [e1; e2].
Proof.
  assert (H12 : Qle_bool (compare_ms e1 e2) 0 = true)
    by (apply compare_ms_le; unfold ms_le; lra).
  assert (H21 : Qle_bool (compare_ms e2 e1) 0 = false).
  { destruct (Qle_bool (compare_ms e2 e1) 0) eqn:E; [| reflexivity].
    apply compare_ms_le in E. unfold ms_le in E. lra. }
  unfold updatedTop. cbn. now rewrite H12, H21.
Qed.

(** X3.  On an ascending board the new entry is placed behind every entry
    whose value is at most its own, ties included, and in front of the
    slower ones; when its id is fresh its rank is one more than the number
    of entries that are not slower, or null when ten or more are. *)
Theorem new_entry_goes_behind_its_ties (currentTop : list Score) (newScore : Score)
    (Hsorted : StronglySorted ms_le currentTop)
    (fresh : forall e, In e currentTop -> id e <> id newScore) :
  let ahead := List.filter (at_most (ms newScore)) currentTop in
  let behind := List.filter (above (ms newScore)) currentTop in
  updatedTop currentTop newScore = firstn capacity (ahead ++ newScore :: behind) /\
  droppedTop currentTop newScore = skipn capacity (ahead ++ newScore :: behind) /\
  rank currentTop newScore
  = if (length ahead <? capacity)%nat then Some (Z.of_nat (length ahead) + 1)
    else None.
Proof.
  intros ahead behind. split; [now apply updatedTop_on_sorted |]. split.
  - unfold droppedTop. now rewrite sort_places_new_entry.
  - now apply rank_by_count.
Qed.

(** X4.  A full ascending board turns away an entry that is not strictly
    faster than its slowest one: the board stays as it is, the new entry is
    the one cut off, and with a fresh id the rank is null. *)
Theorem full_board_turns_away_slower_entry
    (currentTop : list Score) (newScore : Score)
    (Hsorted : StronglySorted ms_le currentTop)
    (Hfull : length currentTop = capacity)
    (Hslower : forall e, In e currentTop -> (ms e <= ms newScore)%Q)
    (fresh : forall e, In e currentTop -> id e <> id newScore) :
  updatedTop currentTop newScore = currentTop /\
  droppedTop currentTop newScore = [newScore] /\
  rank currentTop newScore = None.
Proof.
  assert (Hall : List.filter (at_most (ms newScore)) currentTop = currentTop).
  { pose proof (sorted_split_at (ms newScore) currentTop Hsorted) as Hsplit.
    assert (Hnone : List.filter (above (ms newScore)) currentTop = []).
    { apply filter_none. intros e He. unfold above.
      apply negb_false_iff, Qle_bool_iff. now apply Hslower. }
    rewrite Hnone, app_nil_r in Hsplit. exact Hsplit. }
  assert (Hnone : List.filter (above (ms newScore)) currentTop = []).
  { apply filter_none. intros e He. unfold above.
    apply negb_false_iff, Qle_bool_iff. now apply Hslower. }
  split; [| split].
  - rewrite updatedTop_on_sorted by exact Hsorted.
    rewrite Hall, Hnone, firstn_app, Hfull, Nat.sub_diag. cbn [firstn].
    rewrite app_nil_r, <- Hfull. apply firstn_all.
  - unfold droppedTop. rewrite sort_places_new_entry by exact Hsorted.
    rewrite Hall, Hnone, skipn_app, Hfull, Nat.sub_diag. cbn [skipn].
    rewrite <- Hfull, skipn_all. reflexivity.
  - rewrite rank_by_count by assumption. rewrite Hall, Hfull.
    now rewrite Nat.ltb_irrefl.
Qed.

(** X5.  On an ascending board of non-zero values and for a fresh id: an
    entry strictly faster than the best one is flagged as a record and
    ranked first; an entry that only ties with the best one is flagged as a
    record too, yet the earlier entry keeps the first place and the rank
    reported is not 1. *)
Theorem record_flag_and_first_place
    (first : Score) (rest : list Score) (newScore : Score)
    (Hsorted : StronglySorted ms_le (first :: rest))
    (Hnonzero : ~ (ms first == 0)%Q)
    (fresh : forall e, In e (first :: rest) -> id e <> id newScore) :
  ((ms newScore < ms first)%Q ->
   isNewRecord (first :: rest) (ms newScore) = true /\
   rank (first :: rest) newScore = Some 1 /\
   nth_error (updatedTop (first :: rest) newScore) 0 = Some newScore) /\
  ((ms newScore == ms first)%Q ->
   isNewRecord (first :: rest) (ms newScore) = true /\
   rank (first :: rest) newScore <> Some 1 /\
   nth_error (updatedTop (first :: rest) newScore) 0 = Some first).
Proof.
  assert (Hflag : (ms newScore <= ms first)%Q ->
                  isNewRecord (first :: rest) (ms newScore) = true).
  { intros Hle. unfold isNewRecord, best_or_Infinity.
    destruct (Qeq_bool (ms first) 0) eqn:Hz;
      [apply Qeq_bool_iff in Hz; contradiction |].
    cbn [le_Bound]. now apply Qle_bool_iff. }
  pose proof (rank_by_count (first :: rest) newScore Hsorted fresh) as Hrank.
  pose proof (updatedTop_on_sorted (first :: rest) newScore Hsorted) as Hkept.
  cbv zeta in Hrank.
  split; intros Hcmp.
  - assert (Hnone : List.filter (at_most (ms newScore)) (first :: rest) = []).
    { apply filter_none. intros e He. unfold at_most.
      destruct (Qle_bool (ms e) (ms newScore)) eqn:Hle; [| reflexivity].
      apply Qle_bool_iff in Hle. exfalso.
      assert (ms_le first e).
      { destruct He as [<- | He]; [unfold ms_le; lra |].
        inversion Hsorted as [| ? ? _ Hall]; subst.
        rewrite List.Forall_forall in Hall. now apply Hall. }
      unfold ms_le in *. lra. }
    rewrite Hnone in Hrank, Hkept.
    split; [apply Hflag; lra |]. split; [exact Hrank |].
    rewrite Hkept. reflexivity.
  - assert (Hhead : at_most (ms newScore) first = true)
      by (unfold at_most; apply Qle_bool_iff; lra).
    cbn [List.filter] in Hrank, Hkept. rewrite Hhead in Hrank, Hkept.
    split; [apply Hflag; lra |]. split.
    + rewrite Hrank. cbn [length].
      destruct (_ <? _)%nat; [| discriminate].
      intros Habs. injection Habs as Habs. lia.
    + rewrite Hkept. reflexivity.
Qed.

(** X6.  While the board holds fewer than 10 entries nothing is dropped:
    the merged board is a rearrangement of the current entries and the new
    one, and the rank reported is never null. *)
Theorem room_on_board_keeps_everything
    (currentTop : list Score) (newScore : Score)
    (Hroom : (length currentTop < capacity)%nat) :
  Permutation (updatedTop currentTop newScore) (currentTop ++ [newScore]) /\
  droppedTop currentTop newScore = [] /\
  exists r, rank currentTop newScore = Some r /\
            1 <= r <= Z.of_nat (length currentTop) + 1.
Proof.
  assert (Hdropped : droppedTop currentTop newScore = []).
  { unfold droppedTop. apply skipn_all2.
    rewrite sort_length, length_app. cbn [length]. lia. }
  pose proof (merge_perm currentTop newScore) as Hperm.
  rewrite Hdropped, app_nil_r in Hperm.
  split; [exact Hperm |]. split; [exact Hdropped |].
  unfold rank, or_null, position.
  set (p := fun score => String.eqb (id score) (id newScore)).
  set (kept := updatedTop currentTop newScore) in *.
  pose proof (findIndex_bounds p kept) as Hb.
  assert (Hne : findIndex p kept <> -1).
  { intros Habs. rewrite findIndex_absent in Habs.
    assert (Hin : In newScore kept).
    { eapply Permutation_in; [symmetry; exact Hperm |].
      apply in_or_app. right. now left. }
    specialize (Habs _ Hin). unfold p in Habs.
    rewrite String.eqb_refl in Habs. discriminate. }
  assert (Hlen : length kept = S (length currentTop)).
  { rewrite (Permutation_length Hperm), length_app. cbn [length]. lia. }
  exists (findIndex p kept + 1).
  destruct (findIndex p kept + 1 =? 0) eqn:E; [lia |].
  split; [reflexivity | lia].
Qed.

(** X7.  Whatever the board and the ids: a rank that is not null lies
    between 1 and 10 and designates an entry of the merged board carrying
    the submitted id, the first such entry; the rank is null exactly when
    no entry of the merged board carries that id. *)
Theorem rank_designates_first_entry_with_id
    (currentTop : list Score) (newScore : Score) :
  (forall r, rank currentTop newScore = Some r ->
     1 <= r <= Z.of_nat capacity /\
     (exists e, nth_error (updatedTop currentTop newScore) (Z.to_nat (r - 1)) = Some e
                /\ id e = id newScore) /\
     (forall j e, nth_error (updatedTop currentTop newScore) j = Some e ->
                  id e = id newScore -> (Z.to_nat (r - 1) <= j)%nat)) /\
  (rank currentTop newScore = None
   <-> forall e, In e (updatedTop currentTop newScore) -> id e <> id newScore).
Proof.
  unfold rank, or_null, position.
  set (p := fun score => String.eqb (id score) (id newScore)).
  set (kept := updatedTop currentTop newScore).
  pose proof (findIndex_bounds p kept) as Hb.
  assert (Hlen : (length kept <= capacity)%nat)
    by (unfold kept; rewrite updatedTop_length; apply Nat.le_min_l).
  split.
  - intros r Hr. destruct (findIndex p kept + 1 =? 0) eqn:E; [discriminate |].
    injection Hr as <-. apply Z.eqb_neq in E.
    replace (findIndex p kept + 1 - 1) with (findIndex p kept) by lia.
    split; [lia |]. split.
    + destruct (findIndex_found p kept) as (x & Hx & Hpx); [lia |].
      exists x. split; [exact Hx | now apply String.eqb_eq].
    + intros j e Hj He.
      destruct (Nat.le_gt_cases (Z.to_nat (findIndex p kept)) j) as [Hle | Hgt];
        [exact Hle | exfalso].
      assert (Hpe : p e = true) by (unfold p; now apply String.eqb_eq).
      clear Hb Hlen E. revert j Hj Hgt.
      induction kept as [| a l IHl]; intros j Hj Hgt; [destruct j; discriminate |].
      cbn [findIndex] in Hgt. destruct (p a) eqn:Ha; [cbn in Hgt; lia |].
      pose proof (findIndex_bounds p l) as Hbl.
      destruct j as [| j]; [cbn in Hj; injection Hj as ->; congruence |].
      cbn [nth_error] in Hj.
      destruct (findIndex p l <? 0) eqn:Hneg; [cbn in Hgt; lia |].
      apply Z.ltb_ge in Hneg. apply (IHl j); [exact Hj | lia].
  - destruct (findIndex p kept + 1 =? 0) eqn:E.
    + apply Z.eqb_eq in E. split; [intros _ | reflexivity].
      assert (Habs : findIndex p kept = -1) by lia.
      rewrite findIndex_absent in Habs. intros e He Hid.
      specialize (Habs e He). unfold p in Habs.
      apply String.eqb_neq in Habs. contradiction.
    + apply Z.eqb_neq in E. split; [discriminate |]. intros Hnone. exfalso.
      destruct (findIndex_found p kept) as (x & Hx & Hpx); [lia |].
      apply (Hnone x); [eapply nth_error_In; eauto | now apply String.eqb_eq].
Qed.

(* ================================================================== *)
(** * Further properties of the submission handler *)
(* ================================================================== *)

(** X8.  Validation draws the line exactly at the domain bound: a POST
    whose body parses is answered 400 if and only if its [ms] is not a
    number between 80 and 1000, both bounds included, whatever the
    surroundings answer afterwards. *)
Theorem answered_400_exactly_outside_domain
    (v : Variant) (env : ProcessEnv) (clock : Clock) (random_id : string)
    (event : Event) (submission : Submission)
    (Hmethod : httpMethod event = "POST"%string)
    (Hbody : parsed event = inr submission) :
  forall (W : Type) (E : Environment W) (w : W),
    statusCode (response_of (run E (submit_handler v env clock random_id event) w))
    = 400
    <-> ~ (exists q, sub_ms submission = JsNumber q /\ (80 <= q)%Q /\ (q <= 1000)%Q).
Proof.
  intros W E w. change (exists q, _) with (in_domain (sub_ms submission)).
  rewrite <- invalid_reaction_time_iff.
  unfold_handlers. rewrite (method_post _ Hmethod), Hbody.
  destruct (invalid_reaction_time (sub_ms submission)); cbn.
  - split; [intros _ H; discriminate | reflexivity].
  - split; [| intros H; now contradiction H].
    destruct (GITHUB_PRIVATE_KEY env); cbn; [| discriminate].
    repeat (answer E); discriminate.
Qed.

(** X9.  The submission handler writes nothing it has not read: against
    any surroundings, every write goes to latest.json or to top.json and
    carries the sha that its own read of that document returned; what it
    writes to top.json is [{ top, last_updated }] with the merge of the
    board it read, and nothing else (a [season] or [season_start] found in
    the document is not written back). *)
Theorem submission_writes_what_it_read
    (v : Variant) (env : ProcessEnv) (clock : Clock) (random_id : string)
    (event : Event) (submission : Submission)
    (Hbody : parsed event = inr submission) :
  let newScore := newScore_of v submission clock random_id in
  forall (W : Type) (E : Environment W) (w : W)
         auth path content sha message reply,
    In (StoreWrite auth path content sha message reply)
       (calls_of (run E (submit_handler v env clock random_id event) w)) ->
    exists current s,
      In (StoreRead auth path (Ok (current, s)))
         (calls_of (run E (submit_handler v env clock random_id event) w)) /\
      sha = Some s /\
      ((path = LatestJson /\ content = ScoreDoc newScore) \/
       (path = TopJson /\
        content = TopDoc (Some (updatedTop (currentTop_of (doc_top current)) newScore))
                         (at_timestamp clock) None None)).
Proof.
  intros newScore W E w auth path content sha message' reply.
  unfold_handlers. rewrite Hbody.
  destruct (negb (String.eqb (httpMethod event) "POST")); cbn; [contradiction |].
  destruct (invalid_reaction_time (sub_ms submission)); cbn; [contradiction |].
  destruct (GITHUB_PRIVATE_KEY env); cbn; [| contradiction].
  repeat (answer E); from_call;
    (do 2 eexists; split; [pick_call |]; split; [reflexivity |];
     first [left; split; reflexivity | right; split; reflexivity]).
Qed.

(** X10.  An answer of 200 tells the whole story: the handler signed,
    obtained a token, read both documents, had both writes accepted, in
    that order and with no other call, and the body carries the new score
    with the record flag and the rank computed on the board it read. *)
Theorem answer_200_means_both_documents_written
    (v : Variant) (env : ProcessEnv) (clock : Clock) (random_id : string)
    (event : Event) (submission : Submission)
    (Hbody : parsed event = inr submission) :
  let newScore := newScore_of v submission clock random_id in
  forall (W : Type) (E : Environment W) (w : W),
    let outcome := run E (submit_handler v env clock random_id event) w in
    statusCode (response_of outcome) = 200 ->
    exists key form iat exp jwt token latest s_latest top s_top,
      let currentTop := currentTop_of (doc_top top) in
      calls_of outcome
      = [ Signing key form iat exp (GITHUB_APP_ID env) (Jwt jwt);
          TokenExchange (GITHUB_INSTALLATION_ID env) jwt (Ok token);
          StoreRead (Some token) LatestJson (Ok (latest, s_latest));
          StoreRead (Some token) TopJson (Ok (top, s_top));
          StoreWrite (Some token) LatestJson (ScoreDoc newScore) (Some s_latest)
                     (latest_message v submission) (Ok tt);
          StoreWrite (Some token) TopJson
                     (TopDoc (Some (updatedTop currentTop newScore))
                             (at_timestamp clock) None None)
                     (Some s_top) (top_message v submission) (Ok tt) ] /\
      response_of outcome
      = mkResponse 200 (ScoreSaved newScore (isNewRecord currentTop (ms newScore))
                                   (rank currentTop newScore)).
Proof.
  intros newScore W E w outcome. subst outcome.
  unfold_handlers. rewrite Hbody.
  destruct (negb (String.eqb (httpMethod event) "POST")); cbn; [discriminate |].
  destruct (invalid_reaction_time (sub_ms submission)); cbn; [discriminate |].
  destruct (GITHUB_PRIVATE_KEY env); cbn; [| discriminate].
  repeat (answer E); intros Hok; try discriminate Hok.
  do 10 eexists. split; [reflexivity |]. unfold rank. now destruct v.
Qed.

(** X11.  No store access without a token: against any surroundings, every
    read and write of the submission handler carries the token that a
    successful exchange returned; when signing or the exchange fails, the
    handler makes no store call at all. *)
Theorem submission_needs_token_for_store
    (v : Variant) (env : ProcessEnv) (clock : Clock) (random_id : string)
    (event : Event) :
  forall (W : Type) (E : Environment W) (w : W),
    let calls := calls_of (run E (submit_handler v env clock random_id event) w) in
    (forall c auth, In c calls -> auth_of c = Some auth ->
       exists installation jwt token,
         In (TokenExchange installation jwt (Ok token)) calls /\ auth = Some token) /\
    (forall failed, In failed calls -> call_failed failed = true ->
       is_store_call failed = false ->
       forall c, In c calls -> is_store_call c = false).
Proof.
  intros W E w calls. subst calls. unfold_handlers.
  destruct (negb (String.eqb (httpMethod event) "POST")); cbn;
    [split; intros; contradiction |].
  destruct (parsed event) as [message | submission]; cbn;
    [split; intros; contradiction |].
  destruct (invalid_reaction_time (sub_ms submission)); cbn;
    [split; intros; contradiction |].
  destruct (GITHUB_PRIVATE_KEY env); cbn; [| split; intros; contradiction].
  repeat (answer E);
    (split;
     [ intros c auth Hc Hauth; in_cases Hc; try discriminate Hauth;
       (injection Hauth as <-; do 3 eexists; split; [pick_call | reflexivity])
     | intros failed Hf Hfailed Hstore; in_cases Hf;
       try discriminate Hfailed; try discriminate Hstore;
       (intros c Hc; in_cases Hc; reflexivity) ]).
Qed.

(** X12.  The two reads go out together and a failed read stops
    everything: against any surroundings, latest.json is read exactly when
    top.json is, and when either read fails no write is made. *)
Theorem failed_read_prevents_writes
    (v : Variant) (env : ProcessEnv) (clock : Clock) (random_id : string)
    (event : Event) :
  forall (W : Type) (E : Environment W) (w : W),
    let calls := calls_of (run E (submit_handler v env clock random_id event) w) in
    ((exists auth reply, In (StoreRead auth LatestJson reply) calls)
     <-> (exists auth reply, In (StoreRead auth TopJson reply) calls)) /\
    (forall auth path reply,
       In (StoreRead auth path reply) calls -> (forall file, reply <> Ok file) ->
       forall c, In c calls -> is_write c = false).
Proof.
  intros W E w calls. subst calls. unfold_handlers.
  destruct (negb (String.eqb (httpMethod event) "POST")); cbn;
    [split; [split; intros (? & ? & []) | intros; contradiction] |].
  destruct (parsed event) as [message | submission]; cbn;
    [split; [split; intros (? & ? & []) | intros; contradiction] |].
  destruct (invalid_reaction_time (sub_ms submission)); cbn;
    [split; [split; intros (? & ? & []) | intros; contradiction] |].
  destruct (GITHUB_PRIVATE_KEY env); cbn;
    [| split; [split; intros (? & ? & []) | intros; contradiction]].
  repeat (answer E);
    (split;
     [ split; intros (a & r & Hin);
       first [ now in_cases Hin | do 2 eexists; pick_call ]
     | intros auth path reply Hr Hfailed; in_cases Hr;
       try (exfalso; eapply Hfailed; reflexivity);
       (intros c Hc; in_cases Hc; reflexivity) ]).
Qed.

(** X13.  The two writes are not one transaction.  On the store model,
    when another writer commits top.json after the handler has written
    latest.json, the handler's top.json write is refused for the stale sha:
    the answer is 500, yet latest.json already holds the new score while
    top.json holds the other writer's document. *)
Theorem refused_board_write_leaves_latest_written
    (v : Variant) (env : ProcessEnv) (clock : Clock) (random_id : string)
    (event : Event) (submission : Submission) (g : GitHub)
    (key token : string) (latestFile topFile : File) (theirs : Doc)
    (Hmethod : httpMethod event = "POST"%string)
    (Hbody : parsed event = inr submission)
    (Hvalid : invalid_reaction_time (sub_ms submission) = false)
    (Hkey : GITHUB_PRIVATE_KEY env = Some key)
    (Hsigns : forall form, signs g form = true)
    (Htoken : installation_token g = Some token)
    (Hlatest : files g !! LatestJson = Some latestFile)
    (Htop : files g !! TopJson = Some topFile)
    (Hothers : concurrent g = [None; None; None; Some (TopJson, theirs)]) :
  let newScore := newScore_of v submission clock random_id in
  let outcome := run github (submit_handler v env clock random_id event) g in
  response_of outcome
  = mkResponse 500 (FailedToSaveScore (FailedToUpdate TopJson "sha does not match")) /\
  content <$> files (world_of outcome) !! LatestJson = Some (ScoreDoc newScore) /\
  content <$> files (world_of outcome) !! TopJson = Some theirs.
Proof.
  intros newScore outcome. subst outcome.
  destruct g as [fs sg tok others]. cbn in Hsigns, Htoken, Hlatest, Htop, Hothers.
  subst tok others.
  unfold_handlers. rewrite (method_post _ Hmethod), Hbody, Hvalid, Hkey.
  repeat (store_step; rewrite ?Hsigns, ?Hlatest, ?Htop, ?N.eqb_refl).
  assert (Hstale : N.eqb (sha topFile) (N.succ (sha topFile)) = false)
    by (apply N.eqb_neq; lia).
  rewrite Hstale. repeat (store_step; rewrite ?Hsigns, ?Hlatest, ?Htop).
  repeat split.
Qed.

(** X14.  Without a private key in the environment a valid submission is
    answered 500 before anything leaves the process: no signing, no token
    exchange, no store call. *)
Theorem submission_without_key_makes_no_call
    (v : Variant) (env : ProcessEnv) (clock : Clock) (random_id : string)
    (event : Event) (submission : Submission)
    (Hmethod : httpMethod event = "POST"%string)
    (Hbody : parsed event = inr submission)
    (Hvalid : invalid_reaction_time (sub_ms submission) = false)
    (Hkey : GITHUB_PRIVATE_KEY env = None) :
  forall (W : Type) (E : Environment W) (w : W),
    exists details,
      run E (submit_handler v env clock random_id event) w
      = (mkResponse 500 (FailedToSaveScore details), w, []).
Proof.
  intros W E w. unfold_handlers.
  rewrite (method_post _ Hmethod), Hbody, Hvalid, Hkey. cbn. eauto.
Qed.

(** X15.  A top.json without a [top] property counts as an empty board:
    on the store model with nobody else committing, the submission is
    answered 200 as a record of rank 1 and top.json is rewritten with the
    new score as its only entry. *)
Theorem board_without_top_is_empty
    (v : Variant) (env : ProcessEnv) (clock : Clock) (random_id : string)
    (event : Event) (submission : Submission) (g : GitHub)
    (key token : string) (latestFile topFile : File)
    (Hmethod : httpMethod event = "POST"%string)
    (Hbody : parsed event = inr submission)
    (Hvalid : invalid_reaction_time (sub_ms submission) = false)
    (Hkey : GITHUB_PRIVATE_KEY env = Some key)
    (Hsigns : forall form, signs g form = true)
    (Htoken : installation_token g = Some token)
    (Hlatest : files g !! LatestJson = Some latestFile)
    (Htop : files g !! TopJson = Some topFile)
    (Hquiet : concurrent g = [])
    (Hnotop : doc_top (content topFile) = None) :
  let newScore := newScore_of v submission clock random_id in
  let outcome := run github (submit_handler v env clock random_id event) g in
  response_of outcome = mkResponse 200 (ScoreSaved newScore true (Some 1)) /\
  content <$> files (world_of outcome) !! TopJson
  = Some (TopDoc (Some [newScore]) (at_timestamp clock) None None).
Proof.
  intros newScore outcome.
  destruct (submission_answer_when_quiet v env clock random_id event submission g
              key token latestFile topFile Hmethod Hbody Hvalid Hkey Hsigns
              Htoken Hlatest Htop Hquiet) as [Hanswer Hboard].
  fold outcome newScore in Hanswer, Hboard. rewrite Hnotop in Hanswer, Hboard.
  cbn [currentTop_of] in Hanswer, Hboard.
  assert (Hrank : rank [] newScore = Some 1).
  { unfold rank, position. cbn. now rewrite String.eqb_refl. }
  rewrite Hrank in Hanswer. split; [exact Hanswer |]. now rewrite Hboard.
Qed.

(* ================================================================== *)
(** * Further properties of the season reset and of the season number *)
(* ================================================================== *)

(** X16.  With any of the three GitHub App variables unset or empty the
    season reset answers 500 "Missing GitHub App credentials" before
    anything leaves the process. *)
Theorem reset_without_credentials_makes_no_call
    (json : string -> TokenMember)
    (env : ProcessEnv) (date_now currentDate : Z) (event : Event)
    (Hmethod : httpMethod event = "POST"%string)
    (Hmissing : missing (GITHUB_APP_ID env) = true
                \/ missing (GITHUB_INSTALLATION_ID env) = true
                \/ missing (GITHUB_PRIVATE_KEY env) = true) :
  forall (W : Type) (E : Environment W) (w : W),
    run E (reset_handler json env date_now currentDate event) w
    = (mkResponse 500 (FailedToResetSeason MissingCredentials), w, []).
Proof.
  intros W E w. unfold_handlers. rewrite (method_post _ Hmethod).
  assert (Hany : missing (GITHUB_APP_ID env) || missing (GITHUB_INSTALLATION_ID env)
                 || missing (GITHUB_PRIVATE_KEY env) = true).
  { destruct Hmissing as [-> | [-> | ->]];
      rewrite ?orb_true_r; reflexivity. }
  now rewrite Hany.
Qed.

Lemma next_season_start (currentDate : Z) :
  let currentSeason := reset_currentSeason currentDate in
  let season_start := seasonStart + currentSeason * 90 * 24 * 60 * 60 * 1000 in
  reset_currentSeason season_start = currentSeason + 1 /\
  reset_currentSeason (season_start - 1) = currentSeason /\
  season_start - periodLength <= currentDate < season_start.
Proof.
  intros currentSeason season_start.
  assert (Hseason : forall t, reset_currentSeason t
                              = (t - seasonStart) / periodLength + 1).
  { intros t. unfold reset_currentSeason, reset_daysSinceStart.
    now rewrite days_then_seasons. }
  assert (Hp : periodLength = 7776000000) by reflexivity.
  assert (Hstart : season_start = seasonStart + currentSeason * periodLength)
    by (unfold season_start; rewrite Hp; lia).
  pose proof (Hseason currentDate) as Hcur. fold currentSeason in Hcur.
  pose proof (Z.div_mod (currentDate - seasonStart) periodLength
                        ltac:(rewrite Hp; lia)) as Hdm.
  pose proof (Z.mod_pos_bound (currentDate - seasonStart) periodLength
                              ltac:(rewrite Hp; lia)) as Hmod.
  rewrite !Hseason, Hstart. repeat split.
  - replace (seasonStart + currentSeason * periodLength - seasonStart)
      with (currentSeason * periodLength) by lia.
    rewrite Z.div_mul by (rewrite Hp; lia). reflexivity.
  - replace (seasonStart + currentSeason * periodLength - 1 - seasonStart)
      with ((currentSeason - 1) * periodLength + (periodLength - 1)) by lia.
    rewrite Z.div_add_l by (rewrite Hp; lia).
    rewrite (Z.div_small (periodLength - 1)) by (rewrite Hp; lia). lia.
  - nia.
  - nia.
Qed.

(** X17.  What a rotation writes, against any surroundings: every write is
    sent without a sha; top.json is reset to an empty list for the season
    after the current one, with a [season_start] that is exactly the first
    millisecond of that next season (the current date lies in the 90 days
    before it); latest.json is reset to [latest: null] for the same next
    season. *)
Theorem rotation_writes_next_season_documents
    (json : string -> TokenMember)
    (env : ProcessEnv) (date_now currentDate : Z) (event : Event) :
  forall (W : Type) (E : Environment W) (w : W)
         auth path content sha message reply,
    In (StoreWrite auth path content sha message reply)
       (calls_of (run E (reset_handler json env date_now currentDate event) w)) ->
    let currentSeason := reset_currentSeason currentDate in
    sha = None /\
    (path = TopJson ->
     exists season_start,
       content = TopDoc (Some []) currentDate (Some (currentSeason + 1))
                        (Some season_start) /\
       reset_currentSeason season_start = currentSeason + 1 /\
       reset_currentSeason (season_start - 1) = currentSeason /\
       season_start - periodLength <= currentDate < season_start) /\
    (path = LatestJson ->
     content = LatestDoc None currentDate (currentSeason + 1)).
Proof.
  intros W E w auth path content sha message' reply.
  pose proof (next_season_start currentDate) as Hnext. cbv zeta in Hnext.
  unfold_handlers.
  destruct (negb (String.eqb (httpMethod event) "POST")); cbn; [contradiction |].
  destruct (missing (GITHUB_APP_ID env) || missing (GITHUB_INSTALLATION_ID env)
            || missing (GITHUB_PRIVATE_KEY env)); cbn; [contradiction |].
  repeat (answer E); from_call;
    (split; [reflexivity |]; split; intros Hpath; try discriminate Hpath;
     first [reflexivity | eexists; split; [reflexivity | exact Hnext]]).
Qed.

(** X18.  The order of a rotation, against any surroundings: top.json is
    reset only after the archive write was accepted, latest.json only after
    the reset of top.json was accepted, and an answer of 200 means that all
    three writes were accepted. *)
Theorem rotation_archives_before_it_resets
    (json : string -> TokenMember)
    (env : ProcessEnv) (date_now currentDate : Z) (event : Event) :
  forall (W : Type) (E : Environment W) (w : W),
    let outcome := run E (reset_handler json env date_now currentDate event) w in
    let currentSeason := reset_currentSeason currentDate in
    (forall auth content sha message reply,
       In (StoreWrite auth TopJson content sha message reply) (calls_of outcome) ->
       exists archive,
         In (StoreWrite auth (ArchiveJson currentSeason) archive None
                        (ArchiveSeason currentSeason) (Ok tt)) (calls_of outcome)) /\
    (forall auth content sha message reply,
       In (StoreWrite auth LatestJson content sha message reply) (calls_of outcome) ->
       exists board,
         In (StoreWrite auth TopJson board None
                        (ResetLeaderboard (currentSeason + 1)) (Ok tt))
            (calls_of outcome)) /\
    (statusCode (response_of outcome) = 200 ->
     response_of outcome
     = mkResponse 200 (SeasonArchived currentSeason (currentSeason + 1)
                                      (ArchiveJson currentSeason)) /\
     exists auth latest,
       In (StoreWrite auth LatestJson latest None
                      (ResetLatest (currentSeason + 1)) (Ok tt)) (calls_of outcome)).
Proof.
  intros W E w outcome currentSeason. subst outcome currentSeason.
  unfold_handlers.
  destruct (negb (String.eqb (httpMethod event) "POST")); cbn;
    [repeat split; intros; try contradiction; discriminate |].
  destruct (missing (GITHUB_APP_ID env) || missing (GITHUB_INSTALLATION_ID env)
            || missing (GITHUB_PRIVATE_KEY env)); cbn;
    [repeat split; intros; try contradiction; discriminate |].
  repeat (answer E);
    (split;
     [ intros auth content sha message' reply; from_call; eexists; pick_call
     | split;
       [ intros auth content sha message' reply; from_call; eexists; pick_call
       | intros Hok; try discriminate Hok;
         (split; [reflexivity | do 2 eexists; pick_call]) ] ]).
Qed.

(** X19.  The archive holds the board that was read: against any
    surroundings, the archive document written by a rotation has as many
    [total_players] as it has [top_scores], and when the read of top.json
    succeeded its [top_scores] are the [top] of the document read (none
    when that document has no [top]). *)
Theorem archive_holds_board_read
    (json : string -> TokenMember)
    (env : ProcessEnv) (date_now currentDate : Z) (event : Event) :
  forall (W : Type) (E : Environment W) (w : W)
         auth season content sha message reply,
    In (StoreWrite auth (ArchiveJson season) content sha message reply)
       (calls_of (run E (reset_handler json env date_now currentDate event) w)) ->
    exists top_scores,
      content = ArchiveDoc (reset_currentSeason currentDate) currentDate top_scores
                           (Z.of_nat (length top_scores)) /\
      forall auth' board s,
        In (StoreRead auth' TopJson (Ok (board, s)))
           (calls_of (run E (reset_handler json env date_now currentDate event) w)) ->
        top_scores = currentTop_of (doc_top board).
Proof.
  intros W E w auth season content sha message' reply.
  unfold_handlers.
  destruct (negb (String.eqb (httpMethod event) "POST")); cbn; [contradiction |].
  destruct (missing (GITHUB_APP_ID env) || missing (GITHUB_INSTALLATION_ID env)
            || missing (GITHUB_PRIVATE_KEY env)); cbn; [contradiction |].
  repeat (answer E); from_call;
    (try match goal with
         | |- context [doc_top ?d] => destruct (doc_top d) eqn:Htop
         end).
  all: ((exists (@nil Score)) + eexists); split;
    [ reflexivity
    | intros auth' board s' Hread; in_cases Hread;
      try match goal with H : doc_top _ = _ |- _ => rewrite H end;
      reflexivity ].
Qed.

(** X20.  The token a rotation uses.  [getGitHubToken] does not test
    [response.ok]: it reads whatever response came back as JSON and returns
    its [token] member.  Against any surroundings and any reading of
    response bodies: every store call of the season reset carries either
    the token of a successful exchange or the [token] member of the body of
    a refused one; a refused exchange whose body is no JSON ends the
    rotation with HTTP 500 and the parse error as details, before any store
    call; a refused exchange whose body is JSON does not abort the
    rotation: the board is read with the member of that body, that is with
    [Bearer undefined] when the body has no [token]. *)
Theorem rotation_token_is_unchecked
    (json : string -> TokenMember)
    (env : ProcessEnv) (date_now currentDate : Z) (event : Event) :
  forall (W : Type) (E : Environment W) (w : W),
    let outcome := run E (reset_handler json env date_now currentDate event) w in
    let calls := calls_of outcome in
    (forall c auth, In c calls -> auth_of c = Some auth ->
       (exists installation jwt token,
          In (TokenExchange installation jwt (Ok token)) calls /\ auth = Some token)
       \/ (exists installation jwt status text,
             In (TokenExchange installation jwt (NotOk status text)) calls
             /\ json text = Member auth)) /\
    (forall installation jwt status text message,
       In (TokenExchange installation jwt (NotOk status text)) calls ->
       json text = JsonThrows message ->
       response_of outcome = mkResponse 500 (FailedToResetSeason (Thrown message)) /\
       forall c, In c calls -> is_store_call c = false) /\
    (forall installation jwt status text member,
       In (TokenExchange installation jwt (NotOk status text)) calls ->
       json text = Member member ->
       exists reply, In (StoreRead member TopJson reply) calls).
Proof.
  intros W E w outcome calls. subst calls outcome. unfold_handlers.
  destruct (negb (String.eqb (httpMethod event) "POST")); cbn;
    [split; [| split]; intros; contradiction |].
  destruct (missing (GITHUB_APP_ID env) || missing (GITHUB_INSTALLATION_ID env)
            || missing (GITHUB_PRIVATE_KEY env)); cbn;
    [split; [| split]; intros; contradiction |].
  repeat (answer E);
    (split; [| split];
     [ intros c auth Hc Hauth; in_cases Hc; try discriminate Hauth;
       (injection Hauth as <-;
        first [ left; do 3 eexists; split; [pick_call | reflexivity]
              | right; do 4 eexists; split; [pick_call | eassumption] ])
     | intros installation jwt status' text' message' Hc Hjson; in_cases Hc;
       try congruence;
       (split; [congruence | intros c Hc; in_cases Hc; reflexivity])
     | intros installation jwt status' text' member Hc Hjson; in_cases Hc;
       try congruence;
       (match goal with
        | H : json ?t = _, H' : json ?t = _ |- _ =>
            rewrite H in H'; injection H' as ?; subst
        end;
        eexists; pick_call) ]).
Qed.

(** X21.  A rotation cannot reset a board that exists.  On the store
    model, with valid credentials, nobody else committing, a top.json in
    place and no archive yet for the season: the archive is written with
    the board's entries, the reset of top.json is then refused because it
    carries no sha, the answer is 500, and top.json and latest.json are
    left as they were. *)
Theorem rotation_stops_at_existing_board
    (json : string -> TokenMember)
    (env : ProcessEnv) (date_now currentDate : Z) (event : Event) (g : GitHub)
    (token : string) (topFile : File)
    (Hmethod : httpMethod event = "POST"%string)
    (Hcredentials : missing (GITHUB_APP_ID env) = false
                    /\ missing (GITHUB_INSTALLATION_ID env) = false
                    /\ missing (GITHUB_PRIVATE_KEY env) = false)
    (Hsigns : forall form, signs g form = true)
    (Htoken : installation_token g = Some token)
    (Htop : files g !! TopJson = Some topFile)
    (Hfree : files g !! ArchiveJson (reset_currentSeason currentDate) = None)
    (Hquiet : concurrent g = []) :
  let currentSeason := reset_currentSeason currentDate in
  let board := currentTop_of (doc_top (content topFile)) in
  let outcome := run github (reset_handler json env date_now currentDate event) g in
  response_of outcome
  = mkResponse 500 (FailedToResetSeason (Thrown "sha was not supplied")) /\
  content <$> files (world_of outcome) !! ArchiveJson currentSeason
  = Some (ArchiveDoc currentSeason currentDate board (Z.of_nat (length board))) /\
  files (world_of outcome) !! TopJson = Some topFile /\
  files (world_of outcome) !! LatestJson = files g !! LatestJson.
Proof.
  intros currentSeason board outcome. subst currentSeason board outcome.
  destruct Hcredentials as (Happ & Hinst & Hpk).
  destruct g as [fs sg tok others]. cbn in Hsigns, Htoken, Htop, Hfree, Hquiet.
  subst tok others.
  unfold_handlers. rewrite (method_post _ Hmethod), Happ, Hinst, Hpk. cbn.
  destruct (GITHUB_PRIVATE_KEY env) as [key |]; [| discriminate Hpk].
  repeat (store_step; rewrite ?Hsigns, ?Htop, ?Hfree).
  repeat split. destruct (doc_top (content topFile)); reflexivity.
Qed.

(** X22.  The season number as a function of time: it grows by exactly one
    every 90 days, it never decreases as time passes, and it is at least 1
    exactly from the epoch 2025-01-15T00:00:00Z on (a clock before the
    epoch gives season 0 or less). *)
Theorem season_number_over_time (t t' : Z) :
  reset_currentSeason (t + 90 * ms_per_day) = reset_currentSeason t + 1 /\
  (t <= t' -> reset_currentSeason t <= reset_currentSeason t') /\
  (1 <= reset_currentSeason t <-> seasonStart <= t) /\
  submit_currentSeason t = reset_currentSeason t.
Proof.
  assert (Hseason : forall x, reset_currentSeason x
                              = (x - seasonStart) / periodLength + 1).
  { intros x. unfold reset_currentSeason, reset_daysSinceStart.
    now rewrite days_then_seasons. }
  assert (Hp : 0 < periodLength) by reflexivity.
  rewrite !Hseason. split; [| split; [| split]].
  - replace (t + 90 * ms_per_day - seasonStart)
      with (1 * periodLength + (t - seasonStart))
      by (unfold periodLength; lia).
    rewrite Z.div_add_l by lia. lia.
  - intros Hle.
    assert ((t - seasonStart) / periodLength <= (t' - seasonStart) / periodLength)
      by (apply Z.div_le_mono; lia).
    lia.
  - split.
    + intros Hs. destruct (Z.le_gt_cases seasonStart t) as [Hle | Hgt]; [exact Hle |].
      assert ((t - seasonStart) / periodLength < 0)
        by (apply Z.div_lt_upper_bound; lia).
      lia.
    + intros Hle.
      assert (0 <= (t - seasonStart) / periodLength) by (apply Z.div_pos; lia).
      lia.
  - reflexivity.
Qed.

(* ================================================================== *)
(** * The debug-key handler *)
(* ================================================================== *)

(** X23.  The key probe only signs: against any surroundings it makes at
    most two calls, both signings and none to the store or the identity
    provider; the first uses the key as configured and the second, made
    only when the first threw, the key with its newlines unescaped; it
    answers 200 exactly when one of them produced a token, and 500
    otherwise. *)
Theorem key_probe_only_signs
    (env : ProcessEnv) (at_iat at_exp : Z) (event : Event)
    (Hmethod : httpMethod event = "POST"%string) :
  forall (W : Type) (E : Environment W) (w : W),
    let outcome := run E (debug_handler env at_iat at_exp event) w in
    (forall c, In c (calls_of outcome) -> is_signing c = true) /\
    (exists first,
       calls_of outcome
       = [Signing (GITHUB_PRIVATE_KEY env) AsConfigured (at_iat / 1000 - 60)
                  (at_exp / 1000 + 600) (GITHUB_APP_ID env) first]
       \/ exists message second,
            first = SignThrows message /\
            calls_of outcome
            = [Signing (GITHUB_PRIVATE_KEY env) AsConfigured (at_iat / 1000 - 60)
                       (at_exp / 1000 + 600) (GITHUB_APP_ID env) first;
               Signing (GITHUB_PRIVATE_KEY env) NewlinesUnescaped
                       (at_iat / 1000 - 60) (at_exp / 1000 + 600)
                       (GITHUB_APP_ID env) second]) /\
    (statusCode (response_of outcome) = 200
     <-> exists key form iat exp iss token,
           In (Signing key form iat exp iss (Jwt token)) (calls_of outcome)) /\
    (statusCode (response_of outcome) = 200
     \/ statusCode (response_of outcome) = 500).
Proof.
  intros W E w outcome. subst outcome. unfold_handlers.
  rewrite (method_post _ Hmethod). cbn.
  answer E; [destruct (GITHUB_PRIVATE_KEY env) eqn:Hkey; cbn; [answer E |] |].
  all: split; [intros c Hc; in_cases Hc; reflexivity |].
  all: split;
    [ eexists; first [ left; reflexivity
                     | right; do 2 eexists; split; reflexivity ] |].
  all: split; [| first [left; reflexivity | right; reflexivity]].
  all: split;
    [ intros Hok; try discriminate Hok; do 6 eexists; pick_call
    | intros (? & ? & ? & ? & ? & ? & Hin); in_cases Hin; reflexivity ].
Qed.

(* ================================================================== *)
(** * The further properties at concrete inputs *)
(* ================================================================== *)

Lemma accepted_142 : accepted_ms 142.
Proof. unfold accepted_ms. split; lra. Qed.

Lemma accepted_200 : accepted_ms 200.
Proof. unfold accepted_ms. split; lra. Qed.

Lemma successive_merges_keep_board_invariant_witness :
  board_invariant
    (fold_left updatedTop [entry 200 "5e6f7a8b"; entry 142 "1a2b3c4d"] []).
Proof.
  apply successive_merges_keep_board_invariant.
  - constructor.
  - repeat constructor; cbn; lra.
  - discriminate.
Defined.

Lemma two_entries_either_order_witness :
  (ms (entry 142 "1a2b3c4d") < ms (entry 200 "5e6f7a8b"))%Q /\
  updatedTop (updatedTop [] (entry 200 "5e6f7a8b")) (entry 142 "1a2b3c4d")
  = [entry 142 "1a2b3c4d"; entry 200 "5e6f7a8b"].
Proof.
  assert (Hlt : (ms (entry 142 "1a2b3c4d") < ms (entry 200 "5e6f7a8b"))%Q)
    by (cbn; lra).
  split; [exact Hlt |].
  exact (proj1 (two_entries_either_order _ _ Hlt)).
Defined.

Lemma sorted_pair :
  StronglySorted ms_le [entry 142 "1a2b3c4d"; entry 200 "5e6f7a8b"].
Proof.
  repeat constructor. unfold ms_le. cbn. lra.
Qed.

Lemma fresh_for_pair (e : Score) :
  In e [entry 142 "1a2b3c4d"; entry 200 "5e6f7a8b"] ->
  id e <> id (entry 142 "9c0d1e2f").
Proof. intros [<- | [<- | []]]; discriminate. Qed.

Lemma new_entry_goes_behind_its_ties_witness :
  StronglySorted ms_le [entry 142 "1a2b3c4d"; entry 200 "5e6f7a8b"] /\
  rank [entry 142 "1a2b3c4d"; entry 200 "5e6f7a8b"] (entry 142 "9c0d1e2f") = Some 2.
Proof.
  split; [exact sorted_pair |].
  exact (proj2 (proj2 (new_entry_goes_behind_its_ties _ (entry 142 "9c0d1e2f")
                         sorted_pair fresh_for_pair))).
Defined.

Lemma full_board_sorted : StronglySorted ms_le full_board.
Proof.
  replace full_board with (sort compare_ms full_board) by (vm_compute; reflexivity).
  apply sort_sorted.
Qed.

Lemma full_board_turns_away_slower_entry_witness :
  length full_board = capacity /\
  updatedTop full_board (entry 190 "4b5a6978") = full_board /\
  rank full_board (entry 190 "4b5a6978") = None.
Proof.
  assert (Hslower : forall e, In e full_board -> (ms e <= ms (entry 190 "4b5a6978"))%Q).
  { intros e He. cbn in He.
    repeat (destruct He as [<- | He]; [unfold Qle; cbn; lia |]). destruct He. }
  assert (fresh : forall e, In e full_board -> id e <> id (entry 190 "4b5a6978")).
  { intros e He. cbn in He.
    repeat (destruct He as [<- | He]; [discriminate |]). destruct He. }
  pose proof (full_board_turns_away_slower_entry full_board (entry 190 "4b5a6978")
                full_board_sorted eq_refl Hslower fresh) as (Hkept & _ & Hrank).
  split; [reflexivity |]. split; [exact Hkept | exact Hrank].
Defined.

Lemma record_flag_and_first_place_witness :
  (ms (entry 142 "9c0d1e2f") == ms (entry 142 "1a2b3c4d"))%Q /\
  isNewRecord [entry 142 "1a2b3c4d"; entry 200 "5e6f7a8b"] 142 = true /\
  rank [entry 142 "1a2b3c4d"; entry 200 "5e6f7a8b"] (entry 142 "9c0d1e2f") <> Some 1.
Proof.
  assert (Htie : (ms (entry 142 "9c0d1e2f") == ms (entry 142 "1a2b3c4d"))%Q)
    by reflexivity.
  assert (Hnonzero : ~ (ms (entry 142 "1a2b3c4d") == 0)%Q) by (cbn; lra).
  pose proof (proj2 (record_flag_and_first_place (entry 142 "1a2b3c4d")
                       [entry 200 "5e6f7a8b"] (entry 142 "9c0d1e2f")
                       sorted_pair Hnonzero fresh_for_pair) Htie)
    as (Hflag & Hrank & _).
  split; [exact Htie |]. split; [exact Hflag | exact Hrank].
Defined.

Lemma room_on_board_keeps_everything_witness :
  (length [entry 142 "1a2b3c4d"] < capacity)%nat /\
  droppedTop [entry 142 "1a2b3c4d"] (entry 200 "5e6f7a8b") = [].
Proof.
  assert (Hroom : (length [entry 142 "1a2b3c4d"] < capacity)%nat)
    by (cbn; unfold capacity; lia).
  split; [exact Hroom |].
  exact (proj1 (proj2 (room_on_board_keeps_everything _ (entry 200 "5e6f7a8b") Hroom))).
Defined.

Lemma rank_designates_first_entry_with_id_witness :
  rank [entry 142 "1a2b3c4d"] (entry 200 "1a2b3c4d") = Some 1 /\
  exists e, nth_error (updatedTop [entry 142 "1a2b3c4d"] (entry 200 "1a2b3c4d"))
                      (Z.to_nat (1 - 1)) = Some e
            /\ id e = id (entry 200 "1a2b3c4d").
Proof.
  assert (Hrank : rank [entry 142 "1a2b3c4d"] (entry 200 "1a2b3c4d") = Some 1)
    by reflexivity.
  split; [exact Hrank |].
  exact (proj1 (proj2 (proj1 (rank_designates_first_entry_with_id
                                [entry 142 "1a2b3c4d"] (entry 200 "1a2b3c4d"))
                             1 Hrank))).
Defined.

Lemma answered_400_exactly_outside_domain_witness :
  statusCode (response_of (run github (submit_handler Seasonal sample_env sample_clock
                                         "5e6f7a8b" (post 50)) seeded_repository))
  = 400 /\
  ~ (exists q, JsNumber 50 = JsNumber q /\ (80 <= q)%Q /\ (q <= 1000)%Q).
Proof.
  assert (H400 : statusCode (response_of
                   (run github (submit_handler Seasonal sample_env sample_clock
                                  "5e6f7a8b" (post 50)) seeded_repository)) = 400)
    by reflexivity.
  split; [exact H400 |].
  exact (proj1 (answered_400_exactly_outside_domain Seasonal sample_env sample_clock
                  "5e6f7a8b" (post 50) (mkSubmission (JsNumber 50) None None)
                  eq_refl eq_refl GitHub github seeded_repository) H400).
Defined.

Lemma submission_writes_what_it_read_witness :
  let calls := calls_of (run github (submit_handler Seasonal sample_env sample_clock
                                       "5e6f7a8b" (post 142)) seeded_repository) in
  let newScore := newScore_of Seasonal (mkSubmission (JsNumber 142) None None)
                              sample_clock "5e6f7a8b" in
  In (StoreWrite (Some "token"%string) LatestJson (ScoreDoc newScore) (Some 3%N)
                 (FeatScored "Anonymous" 142) (Ok tt)) calls /\
  exists current,
    In (StoreRead (Some "token"%string) LatestJson (Ok (current, 3%N))) calls.
Proof.
  intros calls newScore.
  assert (Hcall : In (StoreWrite (Some "token"%string) LatestJson (ScoreDoc newScore)
                        (Some 3%N) (FeatScored "Anonymous" 142) (Ok tt)) calls)
    by (vm_compute; repeat first [left; reflexivity | right]).
  split; [exact Hcall |].
  destruct (submission_writes_what_it_read Seasonal sample_env sample_clock
              "5e6f7a8b" (post 142) (mkSubmission (JsNumber 142) None None)
              eq_refl GitHub github seeded_repository _ _ _ _ _ _ Hcall)
    as (current & s & Hread & Hsha & _).
  injection Hsha as <-. exists current. exact Hread.
Defined.

Lemma answer_200_means_both_documents_written_witness :
  let outcome := run github (submit_handler Seasonal sample_env sample_clock
                               "5e6f7a8b" (post 142)) seeded_repository in
  statusCode (response_of outcome) = 200 /\ length (calls_of outcome) = 6%nat.
Proof.
  intros outcome.
  assert (Hok : statusCode (response_of outcome) = 200) by reflexivity.
  split; [exact Hok |].
  destruct (answer_200_means_both_documents_written Seasonal sample_env sample_clock
              "5e6f7a8b" (post 142) (mkSubmission (JsNumber 142) None None)
              eq_refl GitHub github seeded_repository Hok)
    as (? & ? & ? & ? & ? & ? & ? & ? & ? & ? & Hcalls & _).
  fold outcome in Hcalls. now rewrite Hcalls.
Defined.

Lemma submission_needs_token_for_store_witness :
  let calls := calls_of (run (scripted refusing_exchange)
                             (submit_handler Seasonal sample_env sample_clock
                                "5e6f7a8b" (post 142)) tt) in
  let refused := TokenExchange (Some "2"%string) "jwt" (NotOk 401 "Bad credentials") in
  In refused calls /\ forall c, In c calls -> is_store_call c = false.
Proof.
  intros calls refused.
  assert (Hin : In refused calls)
    by (vm_compute; repeat first [left; reflexivity | right]).
  split; [exact Hin |].
  exact (proj2 (submission_needs_token_for_store Seasonal sample_env sample_clock
                  "5e6f7a8b" (post 142) unit (scripted refusing_exchange) tt)
               refused Hin eq_refl eq_refl).
Defined.

Lemma failed_read_prevents_writes_witness :
  let calls := calls_of (run github (submit_handler Seasonal sample_env sample_clock
                                       "5e6f7a8b" (post 142)) empty_repository) in
  In (StoreRead (Some "token"%string) TopJson (NotOk 404 "Not Found")) calls /\
  forall c, In c calls -> is_write c = false.
Proof.
  intros calls.
  assert (Hin : In (StoreRead (Some "token"%string) TopJson (NotOk 404 "Not Found")) calls)
    by (vm_compute; repeat first [left; reflexivity | right]).
  split; [exact Hin |].
  exact (proj2 (failed_read_prevents_writes Seasonal sample_env sample_clock
                  "5e6f7a8b" (post 142) GitHub github empty_repository)
               _ _ _ Hin ltac:(discriminate)).
Defined.

Lemma refused_board_write_leaves_latest_written_witness :
  let theirs := TopDoc (Some []) 7 None None in
  let outcome := run github (submit_handler Seasonal sample_env sample_clock
                               "5e6f7a8b" (post 142)) (contended_repository theirs) in
  concurrent (contended_repository theirs) = [None; None; None; Some (TopJson, theirs)] /\
  statusCode (response_of outcome) = 500 /\
  content <$> files (world_of outcome) !! TopJson = Some theirs.
Proof.
  intros theirs outcome.
  pose proof (refused_board_write_leaves_latest_written Seasonal sample_env
                sample_clock "5e6f7a8b" (post 142)
                (mkSubmission (JsNumber 142) None None)
                (contended_repository theirs) "key" "token"
                (mkFile (ScoreDoc (entry 150 "1a2b3c4d")) 3%N)
                (mkFile (TopDoc (Some [entry 150 "1a2b3c4d"]) 1 None None) 5%N)
                theirs eq_refl eq_refl eq_refl eq_refl (fun _ => eq_refl)
                eq_refl eq_refl eq_refl eq_refl) as (Hanswer & _ & Htop).
  fold outcome in Hanswer, Htop.
  split; [reflexivity |]. split; [now rewrite Hanswer | exact Htop].
Defined.

Lemma submission_without_key_makes_no_call_witness :
  let env := mkProcessEnv (Some "1"%string) (Some "2"%string) None in
  GITHUB_PRIVATE_KEY env = None /\
  exists details,
    run github (submit_handler Seasonal env sample_clock "5e6f7a8b" (post 142))
        seeded_repository
    = (mkResponse 500 (FailedToSaveScore details), seeded_repository, []).
Proof.
  intros env. split; [reflexivity |].
  exact (submission_without_key_makes_no_call Seasonal env sample_clock "5e6f7a8b"
           (post 142) (mkSubmission (JsNumber 142) None None)
           eq_refl eq_refl eq_refl eq_refl GitHub github seeded_repository).
Defined.

Lemma board_without_top_is_empty_witness :
  let g := mkGitHub (<[LatestJson := mkFile (LatestDoc None 0 1) 0%N]>
                       (<[TopJson := mkFile (LatestDoc None 0 1) 0%N]> ∅))
                    (fun _ => true) (Some "token"%string) [] in
  let outcome := run github (submit_handler Seasonal sample_env sample_clock
                               "5e6f7a8b" (post 142)) g in
  doc_top (LatestDoc None 0 1) = None /\
  statusCode (response_of outcome) = 200.
Proof.
  intros g outcome. split; [reflexivity |].
  pose proof (board_without_top_is_empty Seasonal sample_env sample_clock
                "5e6f7a8b" (post 142) (mkSubmission (JsNumber 142) None None)
                g "key" "token" (mkFile (LatestDoc None 0 1) 0%N)
                (mkFile (LatestDoc None 0 1) 0%N)
                eq_refl eq_refl eq_refl eq_refl (fun _ => eq_refl)
                eq_refl eq_refl eq_refl eq_refl eq_refl) as (Hanswer & _).
  fold outcome in Hanswer. now rewrite Hanswer.
Defined.

Lemma reset_without_credentials_makes_no_call_witness :
  let env := mkProcessEnv (Some "1"%string) (Some "2"%string) None in
  missing (GITHUB_PRIVATE_KEY env) = true /\
  run github (reset_handler sample_json env seasonStart seasonStart (post 1)) seeded_repository
  = (mkResponse 500 (FailedToResetSeason MissingCredentials), seeded_repository, []).
Proof.
  intros env. split; [reflexivity |].
  exact (reset_without_credentials_makes_no_call sample_json env seasonStart seasonStart (post 1)
           eq_refl (or_intror (or_intror eq_refl)) GitHub github seeded_repository).
Defined.

Lemma rotation_writes_next_season_documents_witness :
  let calls := calls_of (run github (reset_handler sample_json sample_env seasonStart seasonStart
                                       (post 1)) empty_repository) in
  let board := TopDoc (Some []) seasonStart (Some 2) (Some 1744675200000) in
  In (StoreWrite (Some "token"%string) TopJson board None (ResetLeaderboard 2) (Ok tt))
     calls /\
  exists season_start,
    board = TopDoc (Some []) seasonStart (Some 2) (Some season_start) /\
    reset_currentSeason season_start = 2 /\
    reset_currentSeason (season_start - 1) = 1 /\
    season_start - periodLength <= seasonStart < season_start.
Proof.
  intros calls board.
  assert (Hin : In (StoreWrite (Some "token"%string) TopJson board None
                      (ResetLeaderboard 2) (Ok tt)) calls)
    by (vm_compute; repeat first [left; reflexivity | right]).
  split; [exact Hin |].
  destruct (rotation_writes_next_season_documents sample_json sample_env seasonStart seasonStart
              (post 1) GitHub github empty_repository _ _ _ _ _ _ Hin)
    as (_ & Htop & _).
  exact (Htop eq_refl).
Defined.

Lemma rotation_archives_before_it_resets_witness :
  let outcome := run github (reset_handler sample_json sample_env seasonStart seasonStart (post 1))
                     empty_repository in
  statusCode (response_of outcome) = 200 /\
  exists auth latest,
    In (StoreWrite auth LatestJson latest None (ResetLatest 2) (Ok tt))
       (calls_of outcome).
Proof.
  intros outcome.
  assert (Hok : statusCode (response_of outcome) = 200) by reflexivity.
  split; [exact Hok |].
  destruct (rotation_archives_before_it_resets sample_json sample_env seasonStart seasonStart
              (post 1) GitHub github empty_repository) as (_ & _ & Hall).
  exact (proj2 (Hall Hok)).
Defined.

Lemma archive_holds_board_read_witness :
  let calls := calls_of (run github (reset_handler sample_json sample_env seasonStart seasonStart
                                       (post 1)) seeded_repository) in
  let board := TopDoc (Some [entry 150 "1a2b3c4d"]) 1 None None in
  let archive := ArchiveDoc 1 seasonStart [entry 150 "1a2b3c4d"] 1 in
  In (StoreWrite (Some "token"%string) (ArchiveJson 1) archive None (ArchiveSeason 1)
                 (Ok tt)) calls /\
  In (StoreRead (Some "token"%string) TopJson (Ok (board, 5%N))) calls /\
  exists top_scores,
    archive = ArchiveDoc 1 seasonStart top_scores (Z.of_nat (length top_scores)) /\
    top_scores = currentTop_of (doc_top board).
Proof.
  intros calls board archive.
  assert (Hwrite : In (StoreWrite (Some "token"%string) (ArchiveJson 1) archive None
                         (ArchiveSeason 1) (Ok tt)) calls)
    by (vm_compute; repeat first [left; reflexivity | right]).
  assert (Hread : In (StoreRead (Some "token"%string) TopJson (Ok (board, 5%N))) calls)
    by (vm_compute; repeat first [left; reflexivity | right]).
  split; [exact Hwrite |]. split; [exact Hread |].
  destruct (archive_holds_board_read sample_json sample_env seasonStart seasonStart (post 1)
              GitHub github seeded_repository _ _ _ _ _ _ Hwrite)
    as (top_scores & Harchive & Hboard).
  exists top_scores. split; [exact Harchive | exact (Hboard _ _ _ Hread)].
Defined.

Lemma rotation_token_is_unchecked_witness :
  let rotate := fun script =>
    run (scripted script)
        (reset_handler sample_json sample_env seasonStart seasonStart (post 1)) tt in
  (In (TokenExchange (Some "2"%string) "jwt" (NotOk 401 "Bad credentials"))
      (calls_of (rotate refusing_exchange)) /\
   statusCode (response_of (rotate refusing_exchange)) = 500 /\
   forall c, In c (calls_of (rotate refusing_exchange)) -> is_store_call c = false) /\
  (In (TokenExchange (Some "2"%string) "jwt" (NotOk 401 "{}"))
      (calls_of (rotate refusing_exchange_json)) /\
   exists reply, In (StoreRead None TopJson reply) (calls_of (rotate refusing_exchange_json))).
Proof.
  intros rotate.
  assert (Hin : In (TokenExchange (Some "2"%string) "jwt"
                      (NotOk 401 "Bad credentials"))
                   (calls_of (rotate refusing_exchange)))
    by (vm_compute; repeat first [left; reflexivity | right]).
  assert (Hin' : In (TokenExchange (Some "2"%string) "jwt" (NotOk 401 "{}"))
                    (calls_of (rotate refusing_exchange_json)))
    by (vm_compute; repeat first [left; reflexivity | right]).
  destruct (rotation_token_is_unchecked sample_json sample_env seasonStart
              seasonStart (post 1) unit (scripted refusing_exchange) tt)
    as (_ & Hthrows & _).
  destruct (Hthrows _ _ _ _ _ Hin eq_refl) as (Hanswer & Hnone).
  destruct (rotation_token_is_unchecked sample_json sample_env seasonStart
              seasonStart (post 1) unit (scripted refusing_exchange_json) tt)
    as (_ & _ & Hgoes).
  split.
  - split; [exact Hin |]. split; [| exact Hnone].
    fold (rotate refusing_exchange) in Hanswer. now rewrite Hanswer.
  - split; [exact Hin' |]. exact (Hgoes _ _ _ _ _ Hin' eq_refl).
Defined.

Lemma rotation_stops_at_existing_board_witness :
  let outcome := run github (reset_handler sample_json sample_env seasonStart seasonStart (post 1))
                     seeded_repository in
  files seeded_repository !! ArchiveJson (reset_currentSeason seasonStart) = None /\
  statusCode (response_of outcome) = 500 /\
  files (world_of outcome) !! TopJson
  = Some (mkFile (TopDoc (Some [entry 150 "1a2b3c4d"]) 1 None None) 5%N).
Proof.
  intros outcome.
  pose proof (rotation_stops_at_existing_board sample_json sample_env seasonStart seasonStart
                (post 1) seeded_repository "token"
                (mkFile (TopDoc (Some [entry 150 "1a2b3c4d"]) 1 None None) 5%N)
                eq_refl (conj eq_refl (conj eq_refl eq_refl)) (fun _ => eq_refl)
                eq_refl eq_refl eq_refl eq_refl) as (Hanswer & _ & Htop & _).
  fold outcome in Hanswer, Htop.
  split; [reflexivity |]. split; [now rewrite Hanswer | exact Htop].
Defined.

Lemma season_number_over_time_witness :
  seasonStart <= seasonStart + 90 * ms_per_day /\
  reset_currentSeason seasonStart <= reset_currentSeason (seasonStart + 90 * ms_per_day).
Proof.
  assert (Hle : seasonStart <= seasonStart + 90 * ms_per_day)
    by (unfold ms_per_day; lia).
  split; [exact Hle |].
  destruct (season_number_over_time seasonStart (seasonStart + 90 * ms_per_day))
    as (_ & Hmono & _).
  exact (Hmono Hle).
Defined.

Lemma key_probe_only_signs_witness :
  let outcome := run github (debug_handler sample_env 10 10 (post 1))
                     empty_repository in
  httpMethod (post 1) = "POST"%string /\
  (statusCode (response_of outcome) = 200 \/ statusCode (response_of outcome) = 500).
Proof.
  intros outcome. split; [reflexivity |].
  destruct (key_probe_only_signs sample_env 10 10 (post 1) eq_refl GitHub github
              empty_repository) as (_ & _ & _ & Hstatus).
  exact Hstatus.
Defined.
